(** * MPPT buck converter controller (ACS712 variant): model and verification

    A shallow embedding of [MPPT_Buck_Converter_ACS712.ino].  The sketch keeps
    its whole state in global variables and function-local statics; here they
    are the fields of one record that every function takes and returns.  The
    hardware (ADC, millisecond timer, supply-voltage probe) is an input: each
    function that samples it receives the raw reading as an argument.  Every
    [analogWrite(PWM, _)] is logged in [pwmOut], and [dutyOut] converts the
    logged arguments to the [int] the call takes.

    Numbers are the sketch's own: [float] is IEEE-754 binary32 (on the AVR
    targets [double] is 32 bits wide as well, so the [double] literals of the
    source are binary32 too), taken from the standard library's executable
    specification [SpecFloat] with 24 bits of precision and [emax = 128];
    [unsigned long] timestamps are integers modulo 2^32. *)

From Stdlib Require Import ZArith List Bool Lia.
From Stdlib Require Import Floats.SpecFloat.
Import ListNotations.
Local Open Scope Z_scope.

(** ** binary32 arithmetic *)

Module F32.

Definition prec : Z := 24.
Definition emax : Z := 128.

Definition float : Type := spec_float.

Definition add : float -> float -> float := SFadd prec emax.
Definition sub : float -> float -> float := SFsub prec emax.
Definition mul : float -> float -> float := SFmul prec emax.
Definition div : float -> float -> float := SFdiv prec emax.

(** C comparisons; each is false as soon as an operand is NaN. *)
Definition lt (x y : float) : bool := SFltb x y.
Definition le (x y : float) : bool := SFleb x y.
Definition gt (x y : float) : bool := SFltb y x.
Definition ge (x y : float) : bool := SFleb y x.

(** Integer to float conversion (round to nearest even; exact below 2^24). *)
Definition of_Z (z : Z) : float := binary_normalize prec emax z 0 false.

(** A decimal literal [n/d] with [n] and [d] exactly representable: the
    correctly rounded quotient is the binary32 value nearest to the literal. *)
Definition lit (n d : Z) : float := div (of_Z n) (of_Z d).

Definition zero : float := S754_zero false.

Definition is_nan (x : float) : bool :=
  match x with S754_nan => true | _ => false end.

(** Float to integer conversion of C: truncation toward zero, undefined
    ([None]) on NaN and on the infinities. *)
Definition trunc (x : float) : option Z :=
  match x with
  | S754_zero _ => Some 0
  | S754_finite s m e =>
      Some (cond_Zopp s (match e with
                         | Zneg p => Z.shiftr (Zpos m) (Zpos p)
                         | _ => Zpos m * 2 ^ e
                         end))
  | _ => None
  end.

(** Conversion to the 16-bit [int] of the AVR, undefined out of range. *)
Definition to_int (x : float) : option Z :=
  match trunc x with
  | Some z => if (-32768 <=? z) && (z <=? 32767) then Some z else None
  | None => None
  end.

End F32.

Import F32.

Declare Scope f32_scope.
Delimit Scope f32_scope with F.
Bind Scope f32_scope with float.
Notation "x + y" := (add x y) : f32_scope.
Notation "x - y" := (sub x y) : f32_scope.
Notation "x * y" := (mul x y) : f32_scope.
Notation "x / y" := (div x y) : f32_scope.
Notation "x < y" := (lt x y) : f32_scope.
Notation "x <= y" := (le x y) : f32_scope.
Notation "x > y" := (gt x y) : f32_scope.
Notation "x >= y" := (ge x y) : f32_scope.

Arguments add : simpl never.
Arguments sub : simpl never.
Arguments mul : simpl never.
Arguments div : simpl never.
Arguments lt : simpl never.
Arguments le : simpl never.
Arguments gt : simpl never.
Arguments ge : simpl never.
Arguments of_Z : simpl never.
Arguments lit : simpl never.

(** ** Build options and configuration *)

(** [F_CPU] selects the ACS712 calibration at build time. *)
Inductive Board : Type := MHz16 | MHz8.

Definition acs712VoltsPerAmp (b : Board) : float :=
  match b with
  | MHz16 => lit 185 1000
  | MHz8 => lit 1221 10000
  end.

Definition acs712Offset : Z := 504.

(** The configuration variables of the sketch.  No statement assigns them, so
    they are kept apart from the mutable state. *)
Record Config : Type := mkConfig {
  minPanelVoltage : float;
  maxPanelVoltage : float;
  trackingIncrement : float;
  maxOutputCurrent : float;
  efficiency : float;
  board : Board
}.

Definition default_config (b : Board) : Config :=
  {| minPanelVoltage := of_Z 12;
     maxPanelVoltage := of_Z 16;
     trackingIncrement := lit 5 10;
     maxOutputCurrent := of_Z 3;
     efficiency := lit 82 100;
     board := b |}.

(** [controlMode] is a [byte] holding one of four [#define]d codes. *)
Definition CV : Z := 1.
Definition CC : Z := 2.
Definition MPPT : Z := 3.
Definition BP : Z := 4.

(** ** Program state *)

Record State : Type := mkState {
  inputVoltage : float;
  inputCurrent : float;
  outputPower : float;
  outputPowerDelta : float;
  outputPowerPrevious : float;
  outputVoltage : float;
  outputCurrent : float;
  controlMode : Z;
  raw0 : float;
  raw1 : float;
  raw2 : float;
  raw3 : float;
  pwm : float;
  trackingDownwards : bool;
  vcc : float;
  targetPanelVoltage : float;
  targetOutputVoltage : float;
  lastMppt : Z;
  lastCalc : Z;
  lastVcc : Z;
  clock : Z;
  pwmOut : list float
}.

Definition set_inputVoltage (v : float) (st : State) : State :=
  {| inputVoltage := v; inputCurrent := inputCurrent st; outputPower := outputPower st;
     outputPowerDelta := outputPowerDelta st;
     outputPowerPrevious := outputPowerPrevious st; outputVoltage := outputVoltage st;
     outputCurrent := outputCurrent st; controlMode := controlMode st; raw0 := raw0 st;
     raw1 := raw1 st; raw2 := raw2 st; raw3 := raw3 st; pwm := pwm st;
     trackingDownwards := trackingDownwards st; vcc := vcc st;
     targetPanelVoltage := targetPanelVoltage st;
     targetOutputVoltage := targetOutputVoltage st; lastMppt := lastMppt st;
     lastCalc := lastCalc st; lastVcc := lastVcc st; clock := clock st;
     pwmOut := pwmOut st |}.

Definition set_inputCurrent (v : float) (st : State) : State :=
  {| inputVoltage := inputVoltage st; inputCurrent := v; outputPower := outputPower st;
     outputPowerDelta := outputPowerDelta st;
     outputPowerPrevious := outputPowerPrevious st; outputVoltage := outputVoltage st;
     outputCurrent := outputCurrent st; controlMode := controlMode st; raw0 := raw0 st;
     raw1 := raw1 st; raw2 := raw2 st; raw3 := raw3 st; pwm := pwm st;
     trackingDownwards := trackingDownwards st; vcc := vcc st;
     targetPanelVoltage := targetPanelVoltage st;
     targetOutputVoltage := targetOutputVoltage st; lastMppt := lastMppt st;
     lastCalc := lastCalc st; lastVcc := lastVcc st; clock := clock st;
     pwmOut := pwmOut st |}.

Definition set_outputPower (v : float) (st : State) : State :=
  {| inputVoltage := inputVoltage st; inputCurrent := inputCurrent st; outputPower := v;
     outputPowerDelta := outputPowerDelta st;
     outputPowerPrevious := outputPowerPrevious st; outputVoltage := outputVoltage st;
     outputCurrent := outputCurrent st; controlMode := controlMode st; raw0 := raw0 st;
     raw1 := raw1 st; raw2 := raw2 st; raw3 := raw3 st; pwm := pwm st;
     trackingDownwards := trackingDownwards st; vcc := vcc st;
     targetPanelVoltage := targetPanelVoltage st;
     targetOutputVoltage := targetOutputVoltage st; lastMppt := lastMppt st;
     lastCalc := lastCalc st; lastVcc := lastVcc st; clock := clock st;
     pwmOut := pwmOut st |}.

Definition set_outputPowerDelta (v : float) (st : State) : State :=
  {| inputVoltage := inputVoltage st; inputCurrent := inputCurrent st;
     outputPower := outputPower st; outputPowerDelta := v;
     outputPowerPrevious := outputPowerPrevious st; outputVoltage := outputVoltage st;
     outputCurrent := outputCurrent st; controlMode := controlMode st; raw0 := raw0 st;
     raw1 := raw1 st; raw2 := raw2 st; raw3 := raw3 st; pwm := pwm st;
     trackingDownwards := trackingDownwards st; vcc := vcc st;
     targetPanelVoltage := targetPanelVoltage st;
     targetOutputVoltage := targetOutputVoltage st; lastMppt := lastMppt st;
     lastCalc := lastCalc st; lastVcc := lastVcc st; clock := clock st;
     pwmOut := pwmOut st |}.

Definition set_outputPowerPrevious (v : float) (st : State) : State :=
  {| inputVoltage := inputVoltage st; inputCurrent := inputCurrent st;
     outputPower := outputPower st; outputPowerDelta := outputPowerDelta st;
     outputPowerPrevious := v; outputVoltage := outputVoltage st;
     outputCurrent := outputCurrent st; controlMode := controlMode st; raw0 := raw0 st;
     raw1 := raw1 st; raw2 := raw2 st; raw3 := raw3 st; pwm := pwm st;
     trackingDownwards := trackingDownwards st; vcc := vcc st;
     targetPanelVoltage := targetPanelVoltage st;
     targetOutputVoltage := targetOutputVoltage st; lastMppt := lastMppt st;
     lastCalc := lastCalc st; lastVcc := lastVcc st; clock := clock st;
     pwmOut := pwmOut st |}.

Definition set_outputVoltage (v : float) (st : State) : State :=
  {| inputVoltage := inputVoltage st; inputCurrent := inputCurrent st;
     outputPower := outputPower st; outputPowerDelta := outputPowerDelta st;
     outputPowerPrevious := outputPowerPrevious st; outputVoltage := v;
     outputCurrent := outputCurrent st; controlMode := controlMode st; raw0 := raw0 st;
     raw1 := raw1 st; raw2 := raw2 st; raw3 := raw3 st; pwm := pwm st;
     trackingDownwards := trackingDownwards st; vcc := vcc st;
     targetPanelVoltage := targetPanelVoltage st;
     targetOutputVoltage := targetOutputVoltage st; lastMppt := lastMppt st;
     lastCalc := lastCalc st; lastVcc := lastVcc st; clock := clock st;
     pwmOut := pwmOut st |}.

Definition set_outputCurrent (v : float) (st : State) : State :=
  {| inputVoltage := inputVoltage st; inputCurrent := inputCurrent st;
     outputPower := outputPower st; outputPowerDelta := outputPowerDelta st;
     outputPowerPrevious := outputPowerPrevious st; outputVoltage := outputVoltage st;
     outputCurrent := v; controlMode := controlMode st; raw0 := raw0 st;
     raw1 := raw1 st; raw2 := raw2 st; raw3 := raw3 st; pwm := pwm st;
     trackingDownwards := trackingDownwards st; vcc := vcc st;
     targetPanelVoltage := targetPanelVoltage st;
     targetOutputVoltage := targetOutputVoltage st; lastMppt := lastMppt st;
     lastCalc := lastCalc st; lastVcc := lastVcc st; clock := clock st;
     pwmOut := pwmOut st |}.

Definition set_controlMode (v : Z) (st : State) : State :=
  {| inputVoltage := inputVoltage st; inputCurrent := inputCurrent st;
     outputPower := outputPower st; outputPowerDelta := outputPowerDelta st;
     outputPowerPrevious := outputPowerPrevious st; outputVoltage := outputVoltage st;
     outputCurrent := outputCurrent st; controlMode := v; raw0 := raw0 st;
     raw1 := raw1 st; raw2 := raw2 st; raw3 := raw3 st; pwm := pwm st;
     trackingDownwards := trackingDownwards st; vcc := vcc st;
     targetPanelVoltage := targetPanelVoltage st;
     targetOutputVoltage := targetOutputVoltage st; lastMppt := lastMppt st;
     lastCalc := lastCalc st; lastVcc := lastVcc st; clock := clock st;
     pwmOut := pwmOut st |}.

Definition set_pwm (v : float) (st : State) : State :=
  {| inputVoltage := inputVoltage st; inputCurrent := inputCurrent st;
     outputPower := outputPower st; outputPowerDelta := outputPowerDelta st;
     outputPowerPrevious := outputPowerPrevious st; outputVoltage := outputVoltage st;
     outputCurrent := outputCurrent st; controlMode := controlMode st; raw0 := raw0 st;
     raw1 := raw1 st; raw2 := raw2 st; raw3 := raw3 st; pwm := v;
     trackingDownwards := trackingDownwards st; vcc := vcc st;
     targetPanelVoltage := targetPanelVoltage st;
     targetOutputVoltage := targetOutputVoltage st; lastMppt := lastMppt st;
     lastCalc := lastCalc st; lastVcc := lastVcc st; clock := clock st;
     pwmOut := pwmOut st |}.

Definition set_trackingDownwards (v : bool) (st : State) : State :=
  {| inputVoltage := inputVoltage st; inputCurrent := inputCurrent st;
     outputPower := outputPower st; outputPowerDelta := outputPowerDelta st;
     outputPowerPrevious := outputPowerPrevious st; outputVoltage := outputVoltage st;
     outputCurrent := outputCurrent st; controlMode := controlMode st; raw0 := raw0 st;
     raw1 := raw1 st; raw2 := raw2 st; raw3 := raw3 st; pwm := pwm st;
     trackingDownwards := v; vcc := vcc st;
     targetPanelVoltage := targetPanelVoltage st;
     targetOutputVoltage := targetOutputVoltage st; lastMppt := lastMppt st;
     lastCalc := lastCalc st; lastVcc := lastVcc st; clock := clock st;
     pwmOut := pwmOut st |}.

Definition set_vcc (v : float) (st : State) : State :=
  {| inputVoltage := inputVoltage st; inputCurrent := inputCurrent st;
     outputPower := outputPower st; outputPowerDelta := outputPowerDelta st;
     outputPowerPrevious := outputPowerPrevious st; outputVoltage := outputVoltage st;
     outputCurrent := outputCurrent st; controlMode := controlMode st; raw0 := raw0 st;
     raw1 := raw1 st; raw2 := raw2 st; raw3 := raw3 st; pwm := pwm st;
     trackingDownwards := trackingDownwards st; vcc := v;
     targetPanelVoltage := targetPanelVoltage st;
     targetOutputVoltage := targetOutputVoltage st; lastMppt := lastMppt st;
     lastCalc := lastCalc st; lastVcc := lastVcc st; clock := clock st;
     pwmOut := pwmOut st |}.

Definition set_targetPanelVoltage (v : float) (st : State) : State :=
  {| inputVoltage := inputVoltage st; inputCurrent := inputCurrent st;
     outputPower := outputPower st; outputPowerDelta := outputPowerDelta st;
     outputPowerPrevious := outputPowerPrevious st; outputVoltage := outputVoltage st;
     outputCurrent := outputCurrent st; controlMode := controlMode st; raw0 := raw0 st;
     raw1 := raw1 st; raw2 := raw2 st; raw3 := raw3 st; pwm := pwm st;
     trackingDownwards := trackingDownwards st; vcc := vcc st; targetPanelVoltage := v;
     targetOutputVoltage := targetOutputVoltage st; lastMppt := lastMppt st;
     lastCalc := lastCalc st; lastVcc := lastVcc st; clock := clock st;
     pwmOut := pwmOut st |}.

Definition set_targetOutputVoltage (v : float) (st : State) : State :=
  {| inputVoltage := inputVoltage st; inputCurrent := inputCurrent st;
     outputPower := outputPower st; outputPowerDelta := outputPowerDelta st;
     outputPowerPrevious := outputPowerPrevious st; outputVoltage := outputVoltage st;
     outputCurrent := outputCurrent st; controlMode := controlMode st; raw0 := raw0 st;
     raw1 := raw1 st; raw2 := raw2 st; raw3 := raw3 st; pwm := pwm st;
     trackingDownwards := trackingDownwards st; vcc := vcc st;
     targetPanelVoltage := targetPanelVoltage st; targetOutputVoltage := v;
     lastMppt := lastMppt st; lastCalc := lastCalc st; lastVcc := lastVcc st;
     clock := clock st; pwmOut := pwmOut st |}.

Definition set_lastMppt (v : Z) (st : State) : State :=
  {| inputVoltage := inputVoltage st; inputCurrent := inputCurrent st;
     outputPower := outputPower st; outputPowerDelta := outputPowerDelta st;
     outputPowerPrevious := outputPowerPrevious st; outputVoltage := outputVoltage st;
     outputCurrent := outputCurrent st; controlMode := controlMode st; raw0 := raw0 st;
     raw1 := raw1 st; raw2 := raw2 st; raw3 := raw3 st; pwm := pwm st;
     trackingDownwards := trackingDownwards st; vcc := vcc st;
     targetPanelVoltage := targetPanelVoltage st;
     targetOutputVoltage := targetOutputVoltage st; lastMppt := v;
     lastCalc := lastCalc st; lastVcc := lastVcc st; clock := clock st;
     pwmOut := pwmOut st |}.

Definition set_lastCalc (v : Z) (st : State) : State :=
  {| inputVoltage := inputVoltage st; inputCurrent := inputCurrent st;
     outputPower := outputPower st; outputPowerDelta := outputPowerDelta st;
     outputPowerPrevious := outputPowerPrevious st; outputVoltage := outputVoltage st;
     outputCurrent := outputCurrent st; controlMode := controlMode st; raw0 := raw0 st;
     raw1 := raw1 st; raw2 := raw2 st; raw3 := raw3 st; pwm := pwm st;
     trackingDownwards := trackingDownwards st; vcc := vcc st;
     targetPanelVoltage := targetPanelVoltage st;
     targetOutputVoltage := targetOutputVoltage st; lastMppt := lastMppt st;
     lastCalc := v; lastVcc := lastVcc st; clock := clock st; pwmOut := pwmOut st |}.

Definition set_lastVcc (v : Z) (st : State) : State :=
  {| inputVoltage := inputVoltage st; inputCurrent := inputCurrent st;
     outputPower := outputPower st; outputPowerDelta := outputPowerDelta st;
     outputPowerPrevious := outputPowerPrevious st; outputVoltage := outputVoltage st;
     outputCurrent := outputCurrent st; controlMode := controlMode st; raw0 := raw0 st;
     raw1 := raw1 st; raw2 := raw2 st; raw3 := raw3 st; pwm := pwm st;
     trackingDownwards := trackingDownwards st; vcc := vcc st;
     targetPanelVoltage := targetPanelVoltage st;
     targetOutputVoltage := targetOutputVoltage st; lastMppt := lastMppt st;
     lastCalc := lastCalc st; lastVcc := v; clock := clock st; pwmOut := pwmOut st |}.

Definition set_raw (v_raw0 : float) (v_raw1 : float) (v_raw2 : float) (v_raw3 : float) (st : State) : State :=
  {| inputVoltage := inputVoltage st; inputCurrent := inputCurrent st;
     outputPower := outputPower st; outputPowerDelta := outputPowerDelta st;
     outputPowerPrevious := outputPowerPrevious st; outputVoltage := outputVoltage st;
     outputCurrent := outputCurrent st; controlMode := controlMode st; raw0 := v_raw0;
     raw1 := v_raw1; raw2 := v_raw2; raw3 := v_raw3; pwm := pwm st;
     trackingDownwards := trackingDownwards st; vcc := vcc st;
     targetPanelVoltage := targetPanelVoltage st;
     targetOutputVoltage := targetOutputVoltage st; lastMppt := lastMppt st;
     lastCalc := lastCalc st; lastVcc := lastVcc st; clock := clock st;
     pwmOut := pwmOut st |}.

Definition set_clock (v : Z) (st : State) : State :=
  {| inputVoltage := inputVoltage st; inputCurrent := inputCurrent st;
     outputPower := outputPower st; outputPowerDelta := outputPowerDelta st;
     outputPowerPrevious := outputPowerPrevious st; outputVoltage := outputVoltage st;
     outputCurrent := outputCurrent st; controlMode := controlMode st; raw0 := raw0 st;
     raw1 := raw1 st; raw2 := raw2 st; raw3 := raw3 st; pwm := pwm st;
     trackingDownwards := trackingDownwards st; vcc := vcc st;
     targetPanelVoltage := targetPanelVoltage st;
     targetOutputVoltage := targetOutputVoltage st; lastMppt := lastMppt st;
     lastCalc := lastCalc st; lastVcc := lastVcc st; clock := v; pwmOut := pwmOut st |}.

Definition set_pwmOut (v : list float) (st : State) : State :=
  {| inputVoltage := inputVoltage st; inputCurrent := inputCurrent st;
     outputPower := outputPower st; outputPowerDelta := outputPowerDelta st;
     outputPowerPrevious := outputPowerPrevious st; outputVoltage := outputVoltage st;
     outputCurrent := outputCurrent st; controlMode := controlMode st; raw0 := raw0 st;
     raw1 := raw1 st; raw2 := raw2 st; raw3 := raw3 st; pwm := pwm st;
     trackingDownwards := trackingDownwards st; vcc := vcc st;
     targetPanelVoltage := targetPanelVoltage st;
     targetOutputVoltage := targetOutputVoltage st; lastMppt := lastMppt st;
     lastCalc := lastCalc st; lastVcc := lastVcc st; clock := clock st; pwmOut := v |}.

(** The globals as initialised by the C runtime and [setup()], which switches
    the output off. *)
Definition init : State :=
  {| inputVoltage := zero; inputCurrent := zero; outputPower := zero;
     outputPowerDelta := zero; outputPowerPrevious := of_Z 9999;
     outputVoltage := zero; outputCurrent := zero; controlMode := 0;
     raw0 := zero; raw1 := zero; raw2 := zero; raw3 := zero; pwm := zero;
     trackingDownwards := false; vcc := lit 45 10;
     targetPanelVoltage := of_Z 14; targetOutputVoltage := lit 42 10;
     lastMppt := 0; lastCalc := 0; lastVcc := 0; clock := 0;
     pwmOut := [of_Z 0] |}.

(** ** Hardware interface *)

(** [millis()]: the clock as an [unsigned long]. *)
Definition millis (st : State) : Z := clock st mod 2 ^ 32.

(** [a - b] on [unsigned long]. *)
Definition usub (a b : Z) : Z := (a - b) mod 2 ^ 32.

Definition delay (ms : Z) (st : State) : State := set_clock (clock st + ms) st.

(** [analogWrite(PWM, val)]: the sketch passes a [float] where the call
    takes an [int].  The log keeps the argument as the [float] it is, newest
    first; [dutyOut] below is what the output receives. *)
Definition analogWrite (val : float) (st : State) : State :=
  set_pwmOut (val :: pwmOut st) st.

(** The duty values the PWM output receives, newest first: each logged
    argument converted to [int], [None] where the conversion is undefined. *)
Definition dutyOut (st : State) : list (option Z) := map to_int (pwmOut st).

(** The three conversions of one [readSensors()] call, in ADC counts. *)
Record Sample : Type := mkSample {
  aVsenseIn : Z;
  aIsenseOut : Z;
  aVsenseOut : Z
}.

(** What one pass of the undervoltage wait samples: the supply voltage in
    millivolts as [readVcc()] reports it, and the sensors. *)
Record Resample : Type := mkResample {
  r_vccmv : Z;
  r_sample : Sample
}.

(** What one pass of [loop()] samples: the time the pass takes apart from its
    [delay]s, the potentiometer, the sensors, the re-samples of the
    undervoltage wait, and the supply voltage for the closing [checkVcc()]. *)
Record CycleIn : Type := mkCycleIn {
  elapsed : Z;
  aPot : Z;
  first : Sample;
  resamples : list Resample;
  vccmv : Z
}.

(** ** The sketch *)

Definition readPot (a : Z) (st : State) : State :=
  set_targetOutputVoltage (of_Z a / of_Z 1023 + lit 42 10)%F st.

Definition averageA (b : Board) (a : Z) (st : State) : float * State :=
  let r3 := raw2 st in
  let r2 := raw1 st in
  let r1 := raw0 st in
  let r0 := (of_Z (a - acs712Offset) * vcc st / acs712VoltsPerAmp b / of_Z 1024)%F in
  let average := ((r0 + r1 + r2 + r3) / of_Z 4)%F in
  (average, set_raw r0 r1 r2 r3 st).

Definition readSensors (cfg : Config) (s : Sample) (st : State) : State :=
  let st := set_inputVoltage (of_Z (aVsenseIn s) * vcc st / of_Z 93)%F st in
  let (average, st) := averageA (board cfg) (aIsenseOut s) st in
  let st := set_outputCurrent average st in
  let st := set_outputPower (outputVoltage st * outputCurrent st)%F st in
  let st := set_outputVoltage
              (inputVoltage st - of_Z (aVsenseOut s) * vcc st / of_Z 92)%F st in
  set_inputCurrent
    (outputCurrent st * outputVoltage st / inputVoltage st / efficiency cfg)%F st.

Definition lockout (st : State) : State :=
  let st := set_pwm (of_Z 0) st in
  analogWrite (pwm st) st.

Definition checkVcc (mv : Z) (st : State) : State :=
  if 1000 <=? usub (millis st) (lastVcc st) then
    let st := set_lastVcc (millis st) st in
    set_vcc (of_Z mv / of_Z 1000)%F st
  else st.

(** The [constrain] macro of the Arduino core. *)
Definition constrain (amt low high : float) : float :=
  if (amt < low)%F then low else if (amt > high)%F then high else amt.

(** *** [mppt()], piece by piece *)

(** Condition of the panel undervoltage loop. *)
Definition undervoltage (st : State) : bool :=
  (outputVoltage st < of_Z 1)%F && (inputVoltage st < of_Z 15)%F.

(** Body of the panel undervoltage loop. *)
Definition wait_body (cfg : Config) (r : Resample) (st : State) : State :=
  let st := set_pwm (of_Z 0) st in
  let st := analogWrite (pwm st) st in
  let st := delay 2000 st in
  let st := checkVcc (r_vccmv r) st in
  readSensors cfg (r_sample r) st.

(** The loop itself.  Each pass consumes one re-sample; [None] when the
    re-samples supplied are used up and the condition still holds. *)
Fixpoint undervoltage_wait (cfg : Config) (rs : list Resample) (st : State)
  : option State :=
  if undervoltage st then
    match rs with
    | [] => None
    | r :: rs' => undervoltage_wait cfg rs' (wait_body cfg r st)
    end
  else Some st.

(** Tracking direction, the block run every 1000 ms. *)
Definition direction_subloop (cfg : Config) (st : State) : State :=
  let st := set_outputPowerDelta (outputPower st - outputPowerPrevious st)%F st in
  let st := if trackingDownwards st
            then set_targetPanelVoltage
                   (targetPanelVoltage st - trackingIncrement cfg)%F st
            else set_targetPanelVoltage
                   (targetPanelVoltage st + trackingIncrement cfg)%F st in
  let st :=
    if (targetPanelVoltage st <= minPanelVoltage cfg)%F then
      set_targetPanelVoltage
        ((minPanelVoltage cfg + maxPanelVoltage cfg) / of_Z 2)%F st
    else if (targetPanelVoltage st >= maxPanelVoltage cfg)%F then
      set_targetPanelVoltage
        ((minPanelVoltage cfg + maxPanelVoltage cfg) / of_Z 2)%F st
    else if (outputPowerDelta st < lit 1 10)%F then
      set_trackingDownwards (negb (trackingDownwards st)) st
    else st in
  set_outputPowerPrevious (outputPower st) st.

(** Deviation, the block run every 50 ms. *)
Definition convergence_subloop (st : State) : State :=
  set_pwm (pwm st - (targetPanelVoltage st - inputVoltage st))%F st.

(** The four branches of the controller chain. *)
Definition cv_branch (cfg : Config) (st : State) : State :=
  let st := set_pwm (pwm st + (targetOutputVoltage st - outputVoltage st))%F st in
  let st := if (inputVoltage st < minPanelVoltage cfg)%F
            then set_pwm (pwm st - (minPanelVoltage cfg - inputVoltage st))%F st
            else st in
  set_controlMode CV st.

Definition cc_branch (cfg : Config) (st : State) : State :=
  let st := set_pwm (pwm st - (outputCurrent st - maxOutputCurrent cfg))%F st in
  set_controlMode CC st.

Definition bp_branch (st : State) : State :=
  let st := set_pwm (pwm st - of_Z 1)%F st in
  set_controlMode BP st.

Definition mppt_branch (cfg : Config) (st : State) : State :=
  let st := set_controlMode MPPT st in
  let st := if 1000 <=? usub (millis st) (lastMppt st)
            then direction_subloop cfg (set_lastMppt (millis st) st)
            else st in
  if 50 <=? usub (millis st) (lastCalc st)
  then convergence_subloop (set_lastCalc (millis st) st)
  else st.

(** Voltage and current controllers: the [if / else if] chain. *)
Definition controllers (cfg : Config) (st : State) : State :=
  if (outputVoltage st > targetOutputVoltage st - lit 2 10)%F
     && (outputCurrent st <= maxOutputCurrent cfg)%F
  then cv_branch cfg st
  else if (outputCurrent st > maxOutputCurrent cfg)%F
          && (outputVoltage st < targetOutputVoltage st)%F
  then cc_branch cfg st
  else if (outputCurrent st > maxOutputCurrent cfg)%F
          && (outputVoltage st > targetOutputVoltage st)%F
  then bp_branch st
  else mppt_branch cfg st.

(** Output overvoltage protection. *)
Definition protection (st : State) : State :=
  if (outputVoltage st > targetOutputVoltage st + of_Z 1)%F then lockout st
  else st.

(** Write PWM output. *)
Definition write_output (st : State) : State :=
  let st := set_pwm (constrain (pwm st) (of_Z 0) (of_Z 150)) st in
  analogWrite (pwm st) st.

(** The state on which the controller chain runs: the sensors read once, then
    the undervoltage loop. *)
Definition arbitration_point (cfg : Config) (s : Sample) (rs : list Resample)
    (st : State) : option State :=
  undervoltage_wait cfg rs (readSensors cfg s st).

Definition mppt (cfg : Config) (s : Sample) (rs : list Resample) (st : State)
  : option State :=
  match arbitration_point cfg s rs st with
  | Some st => Some (write_output (protection (controllers cfg st)))
  | None => None
  end.

(** [loop()].  [led()] and the serial output only read the state. *)
Definition loop (cfg : Config) (i : CycleIn) (st : State) : option State :=
  let st := delay (elapsed i) st in
  let st := readPot (aPot i) st in
  match mppt cfg (first i) (resamples i) st with
  | Some st => Some (checkVcc (vccmv i) st)
  | None => None
  end.


(** [led()] tells the mode by the pattern it makes the status LED flash. *)

(** One call of [LED.flash]: the arguments as the sketch passes them. *)
Record Flash : Type := mkFlash {
  onDuration : Z;
  offDuration : Z;
  pauseDuration : Z;
  pulses : float
}.

(** [led()]: the calls of [LED.flash] it makes, in order. *)
Definition led (st : State) : list Flash :=
  (if controlMode st =? MPPT
   then [mkFlash 20 380 700 (inputVoltage st)] else [])
  ++ (if controlMode st =? CV then [mkFlash 30 100 0 (of_Z 0)] else [])
  ++ (if controlMode st =? CC then [mkFlash 30 50 0 (of_Z 0)] else [])
  ++ (if controlMode st =? BP then [mkFlash 30 25 0 (of_Z 0)] else []).

(** * Vocabulary of the properties *)

(** ** The MPPT tracker *)

(** The target after the step in the current direction. *)
Definition stepped_target (cfg : Config) (st : State) : float :=
  if trackingDownwards st
  then (targetPanelVoltage st - trackingIncrement cfg)%F
  else (targetPanelVoltage st + trackingIncrement cfg)%F.

(** The middle of the configured panel voltage range. *)
Definition midpoint (cfg : Config) : float :=
  ((minPanelVoltage cfg + maxPanelVoltage cfg) / of_Z 2)%F.

(** At or below the minimum, or at or above the maximum. *)
Definition outside_limits (cfg : Config) (v : float) : bool :=
  (v <= minPanelVoltage cfg)%F || (v >= maxPanelVoltage cfg)%F.

Definition powerDelta (st : State) : float :=
  (outputPower st - outputPowerPrevious st)%F.

(** ** Mode arbitration *)

(** The mode predicates, as the design states them. *)
Definition cv_pred (cfg : Config) (st : State) : bool :=
  (outputVoltage st > targetOutputVoltage st - lit 2 10)%F
  && (outputCurrent st <= maxOutputCurrent cfg)%F.

Definition cc_pred (cfg : Config) (st : State) : bool :=
  (outputCurrent st > maxOutputCurrent cfg)%F
  && (outputVoltage st < targetOutputVoltage st)%F.

Definition bp_pred (cfg : Config) (st : State) : bool :=
  (outputCurrent st > maxOutputCurrent cfg)%F
  && (outputVoltage st > targetOutputVoltage st)%F.

(** The branch of the chain that belongs to a mode code. *)
Definition run_mode (cfg : Config) (m : Z) (st : State) : State :=
  if m =? CV then cv_branch cfg st
  else if m =? CC then cc_branch cfg st
  else if m =? BP then bp_branch st
  else mppt_branch cfg st.

(** The duty-cycle arithmetic of each mode, as the design states it; in MPPT
    mode the correction is applied when the 50 ms timer is due, towards the
    target the direction sub-loop leaves when the 1000 ms timer is due. *)
Definition mode_pwm (cfg : Config) (m : Z) (st : State) : float :=
  if m =? CV then
    let p := (pwm st + (targetOutputVoltage st - outputVoltage st))%F in
    if (inputVoltage st < minPanelVoltage cfg)%F
    then (p - (minPanelVoltage cfg - inputVoltage st))%F else p
  else if m =? CC then (pwm st - (outputCurrent st - maxOutputCurrent cfg))%F
  else if m =? BP then (pwm st - of_Z 1)%F
  else
    let target :=
      if 1000 <=? usub (millis st) (lastMppt st)
      then targetPanelVoltage (direction_subloop cfg st)
      else targetPanelVoltage st in
    if 50 <=? usub (millis st) (lastCalc st)
    then (pwm st - (target - inputVoltage st))%F else pwm st.

(** ** The undervoltage loop *)

(** The state after the loop body has run once for each re-sample. *)
Definition wait_passes (cfg : Config) (rs : list Resample) (st : State) : State :=
  fold_left (fun s r => wait_body cfg r s) rs st.

(** ** Overvoltage protection *)

(** Condition of the output overvoltage protection. *)
Definition overvoltage (st : State) : bool :=
  (outputVoltage st > targetOutputVoltage st + of_Z 1)%F.


(** ** Magnitudes and the reachable states *)

(** [x] is a zero or a finite number whose mantissa fits the 24 bits of the
    format and whose magnitude is below [2 ^ k]. *)
Definition finite_below (k : Z) (x : float) : Prop :=
  match x with
  | S754_zero _ => True
  | S754_finite _ m e =>
      Zpos (digits2_pos m) <= 24 /\ Zpos (digits2_pos m) + e <= k
  | _ => False
  end.

(** [PWM_MAX], the upper limit of the [constrain] in [mppt()]. *)
Definition PWM_MAX : Z := 150.

(** A duty value within [0, PWM_MAX]. *)
Definition duty_range (x : float) : Prop :=
  finite_below 8 x /\ (of_Z 0 <= x)%F = true /\ (x <= of_Z PWM_MAX)%F = true.

(** Readings the hardware can deliver: 10-bit ADC counts, and a supply
    voltage in millivolts that fits the [long] of [readVcc()]. *)
Definition valid_adc (a : Z) : Prop := 0 <= a <= 1023.

Definition valid_sample (s : Sample) : Prop :=
  valid_adc (aVsenseIn s) /\ valid_adc (aIsenseOut s) /\ valid_adc (aVsenseOut s).

Definition valid_vccmv (mv : Z) : Prop := - 2 ^ 31 <= mv < 2 ^ 31.

Definition valid_resample (r : Resample) : Prop :=
  valid_vccmv (r_vccmv r) /\ valid_sample (r_sample r).

Definition valid_input (i : CycleIn) : Prop :=
  valid_adc (aPot i) /\ valid_sample (first i) /\
  Forall valid_resample (resamples i) /\ valid_vccmv (vccmv i).

(** The states in which a pass of [loop()] can start. *)
Inductive reachable (cfg : Config) : State -> Prop :=
| reach_init : reachable cfg init
| reach_loop (st : State) (i : CycleIn) (st' : State) :
    reachable cfg st -> valid_input i -> loop cfg i st = Some st' ->
    reachable cfg st'.

(** What holds of the numbers in every such state; [K] bounds the
    accumulator, which the output stage brings back into the duty range. *)
Definition sensors_bounded (st : State) : Prop :=
  finite_below 30 (vcc st) /\ finite_below 40 (inputVoltage st) /\
  finite_below 45 (outputVoltage st) /\ finite_below 50 (outputCurrent st) /\
  finite_below 40 (raw0 st) /\ finite_below 40 (raw1 st) /\
  finite_below 40 (raw2 st) /\ finite_below 40 (raw3 st) /\
  finite_below 8 (targetPanelVoltage st) /\
  finite_below 8 (targetOutputVoltage st) /\
  Forall duty_range (pwmOut st).

Definition state_ok (st : State) : Prop :=
  sensors_bounded st /\ duty_range (pwm st).

(** The order of magnitude of a constant. *)
Definition magnitude (x : float) : Z :=
  match x with
  | S754_finite _ m e => Zpos (digits2_pos m) + e
  | _ => 0
  end.

Definition nonzero_constant (x : float) : bool :=
  match x with
  | S754_finite _ m _ => Zpos (digits2_pos m) =? 24
  | _ => false
  end.

(** [of_Z 150], evaluated. *)
Definition pwm_max_f : float := S754_finite false 9830400 (-16).

(** The state between the controller chain and the output stage: the
    accumulator is bounded, not yet within the duty range. *)
Definition pre_ok (st : State) : Prop :=
  sensors_bounded st /\ finite_below 60 (pwm st).

(** The target stays strictly between the panel voltage limits. *)
Definition target_in_range (cfg : Config) (st : State) : Prop :=
  (targetPanelVoltage st > minPanelVoltage cfg)%F = true /\
  (targetPanelVoltage st < maxPanelVoltage cfg)%F = true.


(** The invariant of [loop()]. *)
Definition loop_inv (cfg : Config) (st : State) : Prop :=
  state_ok st /\ target_in_range cfg st.

(** Zero or finite: neither NaN nor an infinity. *)
Definition is_finite (x : float) : bool :=
  match x with
  | S754_zero _ | S754_finite _ _ _ => true
  | _ => false
  end.

(** ** Inputs and samples *)

(** The ADC counts, 0 to 1023. *)
Definition adc_counts : list Z := map Z.of_nat (seq 0 1024).

(** The set point a potentiometer reading gives. *)
Definition setpoint (a : Z) : float := (of_Z a / of_Z 1023 + lit 42 10)%F.

Definition setpoint_in_range (a : Z) : bool :=
  (lit 42 10 <= setpoint a)%F && (setpoint a <= lit 52 10)%F.

(** One converted current sample. *)
Definition current_sample (b : Board) (a : Z) (v : float) : float :=
  (of_Z (a - acs712Offset) * v / acs712VoltsPerAmp b / of_Z 1024)%F.

(** A cold start followed by one pass of [loop()] in CV mode. *)
Definition first_pass_input : CycleIn :=
  mkCycleIn 5 0 (mkSample 372 504 276) [] 4500.

(** A pass at 18 V and 4.5 V with 2.3 A on the sensor. *)
Definition steady_pass : CycleIn :=
  mkCycleIn 5 0 (mkSample 372 600 276) [] 4500.

(** A pass that starts in undervoltage (9.7 V, 0.4 V) and finds 18 V and
    4.5 V at the first re-sample. *)
Definition waiting_pass : CycleIn :=
  mkCycleIn 5 0 (mkSample 200 600 190)
    [mkResample 4500 (mkSample 372 600 276)] 4500.

(** A pass 60 ms after the start with 18.4 V on the panel and 1.75 V on the
    output: MPPT mode, and the convergence step is due. *)
Definition tracking_pass : CycleIn :=
  mkCycleIn 60 0 (mkSample 380 504 340) [] 4500.

(** A pass that starts in undervoltage and finds 18 V on the panel and 9 V
    on the output, above the set point by more than 1 V, at the first
    re-sample. *)
Definition lockout_pass : CycleIn :=
  mkCycleIn 5 0 (mkSample 200 600 190)
    [mkResample 4500 (mkSample 372 504 184)] 4500.

(** * Verification *)

(** ** binary32: magnitudes *)

Lemma digits2_pos_size (p : positive) : digits2_pos p = Pos.size p.
Proof. induction p; cbn; congruence. Qed.

Lemma digits2_pos_bounds (p : positive) :
  2 ^ (Zpos (digits2_pos p) - 1) <= Zpos p < 2 ^ Zpos (digits2_pos p).
Proof.
  induction p as [p IH|p IH|]; cbn [digits2_pos].
  - rewrite Pos2Z.inj_succ.
    replace (Z.succ (Z.pos (digits2_pos p)) - 1) with (Z.pos (digits2_pos p) - 1 + 1) by lia.
    rewrite Z.pow_succ_r by lia. rewrite Z.pow_add_r by lia. lia.
  - rewrite Pos2Z.inj_succ.
    replace (Z.succ (Z.pos (digits2_pos p)) - 1) with (Z.pos (digits2_pos p) - 1 + 1) by lia.
    rewrite Z.pow_succ_r by lia. rewrite Z.pow_add_r by lia. lia.
  - cbn. lia.
Qed.

Lemma Zdigits2_nonneg (n : Z) : 0 <= Zdigits2 n.
Proof. destruct n; cbn; lia. Qed.

Lemma Zdigits2_lt (n : Z) : 0 <= n -> n < 2 ^ Zdigits2 n.
Proof.
  destruct n as [|p|p]; intros H; cbn [Zdigits2].
  - reflexivity.
  - apply digits2_pos_bounds.
  - lia.
Qed.

Lemma Zdigits2_le (n k : Z) : 0 <= k -> 0 <= n < 2 ^ k -> Zdigits2 n <= k.
Proof.
  intros Hk [H0 H]. destruct n as [|p|p]; cbn [Zdigits2]; [lia| |lia].
  destruct (Z.le_gt_cases (Zpos (digits2_pos p)) k) as [|Hgt]; [assumption|].
  pose proof (digits2_pos_bounds p) as [Hl _].
  assert (2 ^ k <= 2 ^ (Zpos (digits2_pos p) - 1)) by (apply Z.pow_le_mono_r; lia).
  lia.
Qed.

Lemma Zdigits2_pos (p : positive) : 1 <= Zdigits2 (Zpos p).
Proof. cbn. lia. Qed.

(* iter_pos *)
Lemma iter_pos_comm {A} (f : A -> A) (p : positive) :
  forall x, iter_pos f p (f x) = f (iter_pos f p x).
Proof.
  induction p as [p IH|p IH|]; intros x; cbn.
  - rewrite !IH. reflexivity.
  - rewrite !IH. reflexivity.
  - reflexivity.
Qed.

Lemma iter_pos_succ {A} (f : A -> A) (p : positive) (x : A) :
  iter_pos f (Pos.succ p) x = f (iter_pos f p x).
Proof.
  revert x. induction p as [p IH|p IH|]; intros x; cbn.
  - rewrite !IH, !iter_pos_comm. reflexivity.
  - rewrite !iter_pos_comm. reflexivity.
  - reflexivity.
Qed.

Lemma shr_1_m (mrs : shr_record) :
  0 <= shr_m mrs -> shr_m (shr_1 mrs) = shr_m mrs / 2.
Proof.
  destruct mrs as [m r s]. cbn [shr_m]. intros H.
  destruct m as [|[p|p|]|p]; cbn [shr_1 shr_m].
  - reflexivity.
  - apply Z.div_unique with 1; lia.
  - apply Z.div_unique with 0; lia.
  - reflexivity.
  - lia.
Qed.

Lemma iter_shr_1_m (p : positive) (mrs : shr_record) :
  0 <= shr_m mrs ->
  shr_m (iter_pos shr_1 p mrs) = shr_m mrs / 2 ^ Zpos p.
Proof.
  intros H. induction p as [|p IH] using Pos.peano_ind.
  - cbn [iter_pos]. rewrite shr_1_m by exact H. reflexivity.
  - rewrite iter_pos_succ, shr_1_m.
    + rewrite IH, Pos2Z.inj_succ, Z.pow_succ_r by lia.
      rewrite Z.div_div by lia. f_equal. lia.
    + rewrite IH. apply Z.div_pos; lia.
Qed.

Lemma shr_record_of_loc_m m l : shr_m (shr_record_of_loc m l) = m.
Proof. destruct l as [|[]]; reflexivity. Qed.

Lemma div_pow2_digits (m n : Z) :
  0 <= m -> 0 < n -> Zdigits2 (m / 2 ^ n) <= Z.max 0 (Zdigits2 m - n).
Proof.
  intros Hm Hn.
  pose proof (Zdigits2_lt m Hm) as Hlt.
  pose proof (Zdigits2_nonneg m) as Hd.
  destruct (Z.le_gt_cases n (Zdigits2 m)) as [Hle|Hgt].
  - rewrite Z.max_r by lia. apply Zdigits2_le; [lia|].
    split; [apply Z.div_pos; lia|].
    apply Z.div_lt_upper_bound; [lia|].
    rewrite <- Z.pow_add_r by lia. replace (n + (Zdigits2 m - n)) with (Zdigits2 m) by lia.
    exact Hlt.
  - rewrite Z.div_small; [cbn; lia|].
    split; [lia|]. apply Z.lt_le_trans with (2 ^ Zdigits2 m); [exact Hlt|].
    apply Z.pow_le_mono_r; lia.
Qed.

Lemma shr_fexp_props (m e : Z) (l : location) :
  0 <= m ->
  let '(mrs, e') := shr_fexp 24 128 m e l in
  0 <= shr_m mrs /\ Zdigits2 (shr_m mrs) <= 24 /\
  e' <= Z.max e (Z.max (Zdigits2 m + e - 24) (-149)) /\
  Zdigits2 (shr_m mrs) + e' <= Z.max (Zdigits2 m + e) (-149).
Proof.
  intros Hm. unfold shr_fexp, shr, fexp, emin.
  pose proof (Zdigits2_nonneg m) as Hd.
  change (3 - 128 - 24) with (-149).
  destruct (Z.max (Zdigits2 m + e - 24) (-149) - e) as [|p|p] eqn:E;
    rewrite ?shr_record_of_loc_m.
  - repeat split; try lia.
  - rewrite iter_shr_1_m by (rewrite shr_record_of_loc_m; exact Hm).
    rewrite shr_record_of_loc_m.
    pose proof (div_pow2_digits m (Zpos p) Hm ltac:(lia)) as Hdiv.
    repeat split; try lia.
    apply Z.div_pos; lia.
  - repeat split; try lia.
Qed.

Lemma round_nearest_even_bounds (m : Z) (l : location) :
  m <= round_nearest_even m l <= m + 1.
Proof.
  unfold round_nearest_even. destruct l as [|[]]; try lia.
  destruct (Z.even m); lia.
Qed.

Lemma Zdigits2_succ (m r : Z) : 0 <= m -> m <= r <= m + 1 -> Zdigits2 r <= Zdigits2 m + 1.
Proof.
  intros Hm Hr. pose proof (Zdigits2_lt m Hm). pose proof (Zdigits2_nonneg m).
  apply Zdigits2_le; [lia|]. split; [lia|].
  rewrite Z.pow_add_r by lia. lia.
Qed.

Lemma binary_round_aux_finite_below (s : bool) (m e : Z) (l : location) (k : Z) :
  0 <= m -> Zdigits2 m + e <= k -> e <= 104 -> -149 <= k -> k <= 126 ->
  finite_below (k + 1) (binary_round_aux 24 128 s m e l).
Proof.
  intros Hm Hk He Hlo Hhi. unfold binary_round_aux.
  pose proof (shr_fexp_props m e l Hm) as P1.
  destruct (shr_fexp 24 128 m e l) as [mrs1 e1].
  destruct P1 as (Hm1 & Hd1 & He1 & Hs1).
  set (m2 := round_nearest_even (shr_m mrs1) (loc_of_shr_record mrs1)).
  pose proof (round_nearest_even_bounds (shr_m mrs1) (loc_of_shr_record mrs1)) as Hr.
  fold m2 in Hr.
  pose proof (Zdigits2_succ _ m2 Hm1 Hr) as Hd2.
  pose proof (shr_fexp_props m2 e1 loc_Exact ltac:(lia)) as P2.
  destruct (shr_fexp 24 128 m2 e1 loc_Exact) as [mrs2 e2].
  destruct P2 as (Hm3 & Hd3 & He3 & Hs3).
  pose proof (Zdigits2_nonneg m) as Hdm.
  destruct (shr_m mrs2) as [|p|p] eqn:E; cbn [finite_below]; [exact I| |lia].
  change (128 - 24) with 104.
  assert (Hle : e2 <= 104) by lia.
  apply Z.leb_le in Hle. rewrite Hle. cbn [finite_below].
  cbn [Zdigits2] in Hd3, Hs3. lia.
Qed.

Lemma finite_below_mono (k k' : Z) (x : float) : k <= k' -> finite_below k x -> finite_below k' x.
Proof. destruct x; cbn; intros; try tauto. lia. Qed.

Lemma Zdigits2_abs_le (n k : Z) : 0 <= k -> Z.abs n < 2 ^ k -> Zdigits2 n <= k.
Proof.
  intros Hk H. destruct n as [|p|p]; cbn [Zdigits2]; [lia| |].
  - apply (Zdigits2_le (Zpos p) k Hk). lia.
  - apply (Zdigits2_le (Zpos p) k Hk). cbn in H. lia.
Qed.

Lemma iter_xO_mul (m d : positive) : Zpos (Pos.iter xO m d) = Zpos m * 2 ^ Zpos d.
Proof.
  induction d as [|d IH] using Pos.peano_ind.
  - cbn. lia.
  - rewrite Pos.iter_succ, Pos2Z.inj_xO, IH, Pos2Z.inj_succ, Z.pow_succ_r by lia. lia.
Qed.

Lemma iter_xO_digits (m d : positive) :
  Zpos (digits2_pos (Pos.iter xO m d)) = Zpos (digits2_pos m) + Zpos d.
Proof.
  induction d as [|d IH] using Pos.peano_ind.
  - cbn. lia.
  - rewrite Pos.iter_succ. cbn [digits2_pos]. rewrite Pos2Z.inj_succ, IH. lia.
Qed.

Lemma shl_align_props (m : positive) (e e' : Z) :
  let '(mz, ez) := shl_align m e e' in
  Zpos (digits2_pos mz) + ez = Zpos (digits2_pos m) + e /\ ez <= e /\
  Zpos mz = Zpos m * 2 ^ (e - ez).
Proof.
  unfold shl_align. destruct (e' - e) as [|p|p] eqn:E.
  - rewrite Z.sub_diag. cbn. lia.
  - rewrite Z.sub_diag. cbn. lia.
  - rewrite iter_xO_digits, iter_xO_mul. replace (e - e') with (Zpos p) by lia. lia.
Qed.

Lemma binary_round_finite_below (s : bool) (m : positive) (e k : Z) :
  Zpos (digits2_pos m) + e <= k -> e <= 104 -> -149 <= k -> k <= 126 ->
  finite_below (k + 1) (binary_round 24 128 s m e).
Proof.
  intros Hk He Hlo Hhi. unfold binary_round.
  pose proof (shl_align_props m e (fexp 24 128 (Zpos (digits2_pos m) + e))) as P.
  destruct (shl_align m e (fexp 24 128 (Zpos (digits2_pos m) + e))) as [mz ez].
  destruct P as (P1 & P2 & _).
  apply binary_round_aux_finite_below; cbn [Zdigits2]; lia.
Qed.

Lemma binary_normalize_finite_below (m e k : Z) (sz : bool) :
  Zdigits2 m + e <= k -> e <= 104 -> -149 <= k -> k <= 126 ->
  finite_below (k + 1) (binary_normalize 24 128 m e sz).
Proof.
  intros Hk He Hlo Hhi. destruct m as [|p|p]; cbn [binary_normalize Zdigits2] in *.
  - exact I.
  - apply binary_round_finite_below; assumption.
  - apply binary_round_finite_below; assumption.
Qed.

Lemma mul_finite_below (kx ky : Z) (x y : float) :
  finite_below kx x -> finite_below ky y -> kx + ky <= 106 -> -149 <= kx + ky ->
  finite_below (kx + ky + 1) (SFmul 24 128 x y).
Proof.
  intros Hx Hy Hhi Hlo.
  destruct x as [sx|sx| |sx mx ex], y as [sy|sy| |sy my ey]; cbn [finite_below SFmul] in *;
    try tauto.
  destruct Hx as [Hx1 Hx2], Hy as [Hy1 Hy2].
  pose proof (digits2_pos_bounds mx) as [_ Bx].
  pose proof (digits2_pos_bounds my) as [_ By].
  assert (Hd : Zdigits2 (Zpos (mx * my)) <= Zpos (digits2_pos mx) + Zpos (digits2_pos my)).
  { apply Zdigits2_le; [lia|]. rewrite Pos2Z.inj_mul, Z.pow_add_r by lia. nia. }
  apply binary_round_aux_finite_below; try lia.
Qed.

Lemma shl_align_fst (m : positive) (e e' : Z) :
  e' <= e -> Zpos (fst (shl_align m e e')) = Zpos m * 2 ^ (e - e').
Proof.
  intros H. unfold shl_align. destruct (e' - e) as [|p|p] eqn:E; cbn [fst].
  - replace (e - e') with 0 by lia. cbn. lia.
  - lia.
  - rewrite iter_xO_mul. replace (e - e') with (Zpos p) by lia. reflexivity.
Qed.

Lemma aligned_lt (m : positive) (e ez M : Z) :
  ez <= e -> Zpos (digits2_pos m) + e <= M ->
  Zpos m * 2 ^ (e - ez) < 2 ^ (M - ez).
Proof.
  intros He HM. pose proof (digits2_pos_bounds m) as [_ B].
  apply Z.lt_le_trans with (2 ^ Zpos (digits2_pos m) * 2 ^ (e - ez)).
  - apply Z.mul_lt_mono_pos_r; [apply Z.pow_pos_nonneg; lia|exact B].
  - rewrite <- Z.pow_add_r by lia. apply Z.pow_le_mono_r; lia.
Qed.

Lemma align_sum_digits (sx sy : bool) (mx my : positive) (ex ey : Z) (neg : bool) :
  let ez := Z.min ex ey in
  let a := cond_Zopp sx (Zpos (fst (shl_align mx ex ez))) in
  let b := cond_Zopp sy (Zpos (fst (shl_align my ey ez))) in
  Zdigits2 (if neg then a - b else a + b) + ez
  <= Z.max (Zpos (digits2_pos mx) + ex) (Zpos (digits2_pos my) + ey) + 1.
Proof.
  intros ez a b.
  set (M := Z.max (Zpos (digits2_pos mx) + ex) (Zpos (digits2_pos my) + ey)).
  assert (Hx : Z.abs a < 2 ^ (M - ez)).
  { subst a. rewrite shl_align_fst by (subst ez; lia).
    pose proof (aligned_lt mx ex ez M ltac:(subst ez; lia) ltac:(subst M; lia)).
    destruct sx; cbn [cond_Zopp]; lia. }
  assert (Hy : Z.abs b < 2 ^ (M - ez)).
  { subst b. rewrite shl_align_fst by (subst ez; lia).
    pose proof (aligned_lt my ey ez M ltac:(subst ez; lia) ltac:(subst M; lia)).
    destruct sy; cbn [cond_Zopp]; lia. }
  assert (HM : 0 <= M - ez).
  { subst M ez. pose proof (Pos2Z.is_pos (digits2_pos mx)).
    pose proof (Pos2Z.is_pos (digits2_pos my)). lia. }
  enough (Zdigits2 (if neg then a - b else a + b) <= M - ez + 1) by lia.
  apply Zdigits2_abs_le; [lia|]. rewrite Z.pow_add_r by lia.
  destruct neg; lia.
Qed.

Lemma add_finite_below (kx ky : Z) (x y : float) :
  finite_below kx x -> finite_below ky y -> Z.max kx ky <= 105 -> -150 <= Z.max kx ky ->
  finite_below (Z.max kx ky + 2) (SFadd 24 128 x y).
Proof.
  intros Hx Hy Hhi Hlo.
  destruct x as [sx|sx| |sx mx ex], y as [sy|sy| |sy my ey]; cbn [finite_below SFadd] in *;
    try tauto.
  - destruct sx, sy; exact I.
  - lia.
  - lia.
  - destruct Hx as [Hx1 Hx2], Hy as [Hy1 Hy2].
    pose proof (align_sum_digits sx sy mx my ex ey false) as H. cbv zeta in H.
    pose proof (Pos2Z.is_pos (digits2_pos mx)).
    replace (Z.max kx ky + 2) with (Z.max kx ky + 1 + 1) by lia.
    apply binary_normalize_finite_below; lia.
Qed.

Lemma sub_finite_below (kx ky : Z) (x y : float) :
  finite_below kx x -> finite_below ky y -> Z.max kx ky <= 105 -> -150 <= Z.max kx ky ->
  finite_below (Z.max kx ky + 2) (SFsub 24 128 x y).
Proof.
  intros Hx Hy Hhi Hlo.
  destruct x as [sx|sx| |sx mx ex], y as [sy|sy| |sy my ey]; cbn [finite_below SFsub] in *;
    try tauto.
  - destruct sx, sy; exact I.
  - lia.
  - lia.
  - destruct Hx as [Hx1 Hx2], Hy as [Hy1 Hy2].
    pose proof (align_sum_digits sx sy mx my ex ey true) as H. cbv zeta in H.
    pose proof (Pos2Z.is_pos (digits2_pos mx)).
    replace (Z.max kx ky + 2) with (Z.max kx ky + 1 + 1) by lia.
    apply binary_normalize_finite_below; lia.
Qed.

Lemma div_core_props (mx my : positive) (ex ey : Z) :
  let '(q, e', _) := SFdiv_core_binary 24 128 (Zpos mx) ex (Zpos my) ey in
  0 <= q /\
  e' <= Z.max (Zpos (digits2_pos mx) + ex - (Zpos (digits2_pos my) + ey) - 24) (-149) /\
  Zdigits2 q + e'
  <= Z.max (Zpos (digits2_pos mx) + ex - (Zpos (digits2_pos my) + ey) + 1) (-149).
Proof.
  unfold SFdiv_core_binary. cbn [Zdigits2].
  set (dx := Zpos (digits2_pos mx)). set (dy := Zpos (digits2_pos my)).
  set (e' := Z.min (fexp 24 128 (dx + ex - (dy + ey))) (ex - ey)).
  set (s := ex - ey - e').
  assert (Hfe : fexp 24 128 (dx + ex - (dy + ey)) = Z.max (dx + ex - (dy + ey) - 24) (-149))
    by reflexivity.
  assert (Hs : 0 <= s) by (subst s e'; lia).
  set (m' := match s with Z.pos _ => Z.shiftl (Zpos mx) s | 0 => Zpos mx | Z.neg _ => 0 end).
  assert (Hm' : m' = Zpos mx * 2 ^ s).
  { subst m'. destruct s as [|p|p]; [cbn; lia| |lia].
    rewrite Z.shiftl_mul_pow2 by lia. reflexivity. }
  pose proof (Z_div_mod m' (Zpos my) ltac:(lia)) as Hdm.
  destruct (Z.div_eucl m' (Zpos my)) as [q r]. destruct Hdm as [Heq Hr].
  pose proof (digits2_pos_bounds mx) as [_ Bx]. fold dx in Bx.
  pose proof (digits2_pos_bounds my) as [By _]. fold dy in By.
  assert (Hdy : 1 <= dy) by (subst dy; lia).
  assert (Hdx : 1 <= dx) by (subst dx; lia).
  assert (Hq0 : 0 <= q) by nia.
  split; [exact Hq0|]. split; [subst e'; lia|].
  assert (Hq : Zdigits2 q <= Z.max 0 (dx + s - dy + 1)).
  { destruct (Z.le_gt_cases 0 (dx + s - dy + 1)) as [Hc|Hc].
    - rewrite Z.max_r by lia. apply Zdigits2_le; [lia|]. split; [lia|].
      assert (Hlt : q * 2 ^ (dy - 1) < 2 ^ (dx + s - dy + 1) * 2 ^ (dy - 1)).
      { rewrite <- Z.pow_add_r by lia.
        replace (dx + s - dy + 1 + (dy - 1)) with (dx + s) by lia.
        rewrite Z.pow_add_r by lia.
        assert (Hp : 0 < 2 ^ s) by (apply Z.pow_pos_nonneg; lia).
        nia. }
      apply Z.mul_lt_mono_pos_r in Hlt; [exact Hlt|apply Z.pow_pos_nonneg; lia].
    - rewrite Z.max_l by lia.
      assert (q = 0); [|subst q; cbn; lia].
      assert (Hlt : m' < Zpos my).
      { rewrite Hm'. apply Z.lt_le_trans with (2 ^ (dy - 1)); [|exact By].
        apply Z.lt_le_trans with (2 ^ dx * 2 ^ s).
        - apply Z.mul_lt_mono_pos_r; [apply Z.pow_pos_nonneg; lia|exact Bx].
        - rewrite <- Z.pow_add_r by lia. apply Z.pow_le_mono_r; lia. }
      nia. }
  subst s e'. lia.
Qed.

Lemma div_finite_below (kx j : Z) (x y : float) :
  finite_below kx x ->
  (match y with
   | S754_finite _ my ey => - j <= Zpos (digits2_pos my) + ey
   | _ => False
   end) ->
  kx + j <= 125 -> -150 <= kx + j ->
  finite_below (kx + j + 2) (SFdiv 24 128 x y).
Proof.
  intros Hx Hy Hhi Hlo.
  destruct y as [sy|sy| |sy my ey]; try tauto.
  destruct x as [sx|sx| |sx mx ex]; cbn [finite_below SFdiv] in *; try tauto.
  destruct Hx as [Hx1 Hx2].
  pose proof (div_core_props mx my ex ey) as P.
  destruct (SFdiv_core_binary 24 128 (Zpos mx) ex (Zpos my) ey) as [[q e'] l].
  destruct P as (P0 & P1 & P2).
  replace (kx + j + 2) with (kx + j + 1 + 1) by lia.
  apply binary_round_aux_finite_below; lia.
Qed.

Lemma of_Z_finite_below (z k : Z) :
  0 <= k -> k <= 125 -> Z.abs z < 2 ^ k ->
  finite_below (k + 1) (binary_normalize 24 128 z 0 false).
Proof.
  intros H0 H1 Hz. apply binary_normalize_finite_below; try lia.
  pose proof (Zdigits2_abs_le z k H0 Hz). lia.
Qed.

(* comparisons *)
Lemma le_const_finite_below (x : float) (k : Z) (mh : positive) (eh : Z) :
  finite_below k x ->
  SFleb (S754_zero false) x = true ->
  SFleb x (S754_finite false mh eh) = true ->
  finite_below (24 + eh) x.
Proof.
  destruct x as [sx|sx| |sx mx ex]; cbn [finite_below]; try tauto.
  intros [H1 _] H0 H. destruct sx; [discriminate|].
  unfold SFleb in H. cbn [SFcompare] in H.
  split; [exact H1|].
  destruct (ex ?= eh) eqn:E.
  - apply Z.compare_eq in E. lia.
  - rewrite Z.compare_lt_iff in E. lia.
  - discriminate.
Qed.

Lemma in_range_to_int (x : float) (k : Z) :
  finite_below k x ->
  SFleb (S754_zero false) x = true ->
  SFleb x (S754_finite false 9830400 (-16)) = true ->
  exists d, (match x with
             | S754_zero _ => Some 0
             | S754_finite s m e =>
                 Some (cond_Zopp s (match e with
                                    | Zneg p => Z.shiftr (Zpos m) (Zpos p)
                                    | _ => Zpos m * 2 ^ e
                                    end))
             | _ => None
             end) = Some d /\ 0 <= d <= 150.
Proof.
  destruct x as [sx|sx| |sx mx ex]; cbn [finite_below]; try tauto.
  - intros _ _ _. exists 0. split; [reflexivity|lia].
  - intros [H1 _] H0 H. destruct sx; [discriminate|].
    unfold SFleb in H. cbn [SFcompare] in H.
    eexists. split; [reflexivity|]. cbn [cond_Zopp].
    pose proof (digits2_pos_bounds mx) as [_ B].
    assert (B24 : Zpos mx < 16777216).
    { eapply Z.lt_le_trans; [exact B|].
      change 16777216 with (2 ^ 24). apply Z.pow_le_mono_r; lia. }
    clear B.
    destruct (ex ?= -16) eqn:E.
    + apply Z.compare_eq in E. subst ex.
      rewrite Z.shiftr_div_pow2 by lia. change (2 ^ 16) with 65536.
      assert (Hm : Zpos mx <= 9830400).
      { change (Zpos mx <= 9830400) with (mx <= 9830400)%positive.
        unfold Pos.le, Pos.compare. intros C. rewrite C in H. discriminate. }
      clear H H0. split; [apply Z.div_pos; lia|].
      apply Z.div_le_upper_bound; lia.
    + rewrite Z.compare_lt_iff in E. clear H H0.
      destruct ex as [|p|p]; try lia.
      rewrite Z.shiftr_div_pow2 by lia.
      assert (Hp : 131072 <= 2 ^ Zpos p).
      { change 131072 with (2 ^ 17). apply Z.pow_le_mono_r; lia. }
      generalize dependent (2 ^ Zpos p). intros P HP.
      split; [apply Z.div_pos; lia|].
      apply Z.div_le_upper_bound; nia.
    + discriminate.
Qed.


(** Normal form of the state functions that only assign fields. *)
Ltac state_norm :=
  cbv [readSensors averageA readPot delay analogWrite lockout
       set_inputVoltage set_inputCurrent set_outputPower set_outputPowerDelta
       set_outputPowerPrevious set_outputVoltage set_outputCurrent set_controlMode
       set_pwm set_trackingDownwards set_vcc set_targetPanelVoltage
       set_targetOutputVoltage set_lastMppt set_lastCalc set_lastVcc set_raw
       set_clock set_pwmOut
       inputVoltage inputCurrent outputPower outputPowerDelta outputPowerPrevious
       outputVoltage outputCurrent controlMode raw0 raw1 raw2 raw3 pwm
       trackingDownwards vcc targetPanelVoltage targetOutputVoltage lastMppt
       lastCalc lastVcc clock pwmOut fst snd].

(** ** Sensor acquisition *)

Section SensorAcquisition.

Variable cfg : Config.

(** What [readSensors] leaves alone. *)
Lemma readSensors_frame (s : Sample) (st : State) :
  let st' := readSensors cfg s st in
  pwm st' = pwm st /\ controlMode st' = controlMode st /\
  targetPanelVoltage st' = targetPanelVoltage st /\
  trackingDownwards st' = trackingDownwards st /\
  targetOutputVoltage st' = targetOutputVoltage st /\
  vcc st' = vcc st /\ clock st' = clock st /\ pwmOut st' = pwmOut st /\
  lastVcc st' = lastVcc st /\ lastMppt st' = lastMppt st /\
  lastCalc st' = lastCalc st /\
  outputPowerPrevious st' = outputPowerPrevious st.
Proof. state_norm. repeat split. Qed.

(** The fresh snapshot, field by field. *)
Lemma readSensors_inputVoltage (s : Sample) (st : State) :
  inputVoltage (readSensors cfg s st)
  = (of_Z (aVsenseIn s) * vcc st / of_Z 93)%F.
Proof. state_norm. reflexivity. Qed.

Lemma readSensors_outputVoltage (s : Sample) (st : State) :
  outputVoltage (readSensors cfg s st)
  = (inputVoltage (readSensors cfg s st)
     - of_Z (aVsenseOut s) * vcc st / of_Z 92)%F.
Proof. state_norm. reflexivity. Qed.

Lemma readSensors_outputCurrent (s : Sample) (st : State) :
  outputCurrent (readSensors cfg s st) = fst (averageA (board cfg) (aIsenseOut s) st).
Proof. state_norm. reflexivity. Qed.

End SensorAcquisition.

(** What the rest of a pass of [loop()] does not touch. *)
Lemma checkVcc_frame (mv : Z) (st : State) :
  let st' := checkVcc mv st in
  pwm st' = pwm st /\ controlMode st' = controlMode st /\
  targetPanelVoltage st' = targetPanelVoltage st /\
  trackingDownwards st' = trackingDownwards st /\
  targetOutputVoltage st' = targetOutputVoltage st /\
  clock st' = clock st /\ pwmOut st' = pwmOut st /\
  outputVoltage st' = outputVoltage st /\ outputPower st' = outputPower st /\
  outputCurrent st' = outputCurrent st /\ inputVoltage st' = inputVoltage st.
Proof.
  unfold checkVcc. destruct (1000 <=? usub (millis st) (lastVcc st));
    cbn; repeat split.
Qed.

(** The controller chain, the protection and the output stage leave the
    measurement snapshot and the set point as they are. *)
Lemma direction_subloop_snapshot (cfg : Config) (st : State) :
  let st' := direction_subloop cfg st in
  outputVoltage st' = outputVoltage st /\ outputCurrent st' = outputCurrent st /\
  inputVoltage st' = inputVoltage st /\ outputPower st' = outputPower st /\
  targetOutputVoltage st' = targetOutputVoltage st /\
  pwm st' = pwm st /\ pwmOut st' = pwmOut st /\ clock st' = clock st /\
  controlMode st' = controlMode st /\ lastCalc st' = lastCalc st.
Proof.
  unfold direction_subloop.
  destruct (trackingDownwards st); cbn;
    repeat match goal with |- context [if ?c then _ else _] => destruct c; cbn end;
    repeat split.
Qed.

Lemma controllers_snapshot (cfg : Config) (st : State) :
  let st' := controllers cfg st in
  outputVoltage st' = outputVoltage st /\ outputCurrent st' = outputCurrent st /\
  inputVoltage st' = inputVoltage st /\ outputPower st' = outputPower st /\
  targetOutputVoltage st' = targetOutputVoltage st /\
  pwmOut st' = pwmOut st /\ clock st' = clock st.
Proof.
  unfold controllers, cv_branch, cc_branch, bp_branch, mppt_branch,
    convergence_subloop.
  repeat match goal with
         | |- context [if ?c then _ else _] =>
             match c with
             | context [direction_subloop] => fail 1
             | _ => destruct c; cbn
             end
         end;
    try (repeat split; fail);
    pose proof (direction_subloop_snapshot cfg
                  (set_lastMppt (millis (set_controlMode MPPT st))
                     (set_controlMode MPPT st))) as H; cbn in H;
    repeat match goal with
           | |- context [if ?c then _ else _] => destruct c; cbn
           end; intuition congruence.
Qed.

Lemma protection_snapshot (st : State) :
  let st' := protection st in
  outputVoltage st' = outputVoltage st /\ outputCurrent st' = outputCurrent st /\
  inputVoltage st' = inputVoltage st /\ outputPower st' = outputPower st /\
  targetOutputVoltage st' = targetOutputVoltage st /\
  controlMode st' = controlMode st /\ clock st' = clock st.
Proof.
  unfold protection, lockout.
  destruct (outputVoltage st > targetOutputVoltage st + of_Z 1)%F; cbn;
    repeat split.
Qed.

Lemma write_output_snapshot (st : State) :
  let st' := write_output st in
  outputVoltage st' = outputVoltage st /\ outputCurrent st' = outputCurrent st /\
  inputVoltage st' = inputVoltage st /\ outputPower st' = outputPower st /\
  targetOutputVoltage st' = targetOutputVoltage st /\
  controlMode st' = controlMode st /\ clock st' = clock st /\
  pwmOut st' = pwm st' :: pwmOut st /\
  pwm st' = constrain (pwm st) (of_Z 0) (of_Z 150).
Proof. cbn. repeat split. Qed.

(** [outputPower] is assigned before [outputVoltage]: it multiplies the
    voltage of the previous acquisition by the current of this one. *)
Lemma readSensors_outputPower (cfg : Config) (s : Sample) (st : State) :
  outputPower (readSensors cfg s st)
  = (outputVoltage st * outputCurrent (readSensors cfg s st))%F.
Proof. state_norm. reflexivity. Qed.

(** The derived input current: two divisions, taken whatever the divisor. *)
Lemma readSensors_inputCurrent (cfg : Config) (s : Sample) (st : State) :
  let st' := readSensors cfg s st in
  inputCurrent st'
  = (outputCurrent st' * outputVoltage st' / inputVoltage st' / efficiency cfg)%F.
Proof. state_norm. reflexivity. Qed.

(** A pass of [loop()] whose first acquisition is not an undervoltage goes
    through without waiting. *)
Lemma loop_no_wait (cfg : Config) (i : CycleIn) (st : State) :
  let sa := readSensors cfg (first i) (readPot (aPot i) (delay (elapsed i) st)) in
  undervoltage sa = false ->
  loop cfg i st
  = Some (checkVcc (vccmv i) (write_output (protection (controllers cfg sa)))).
Proof.
  intros sa H. unfold loop, mppt, arbitration_point. fold sa.
  destruct (resamples i); cbn [undervoltage_wait]; rewrite H; reflexivity.
Qed.

(** *** C8 *)

(** The state on which the controller chain runs always comes out of
    [readSensors], so its [inputCurrent] is the unguarded quotient. *)
Lemma undervoltage_wait_inputCurrent (cfg : Config) (rs : list Resample) :
  forall st sa,
    inputCurrent st
    = (outputCurrent st * outputVoltage st / inputVoltage st / efficiency cfg)%F ->
    undervoltage_wait cfg rs st = Some sa ->
    inputCurrent sa
    = (outputCurrent sa * outputVoltage sa / inputVoltage sa / efficiency cfg)%F.
Proof.
  induction rs as [|r rs IH]; intros st sa Hst H; cbn [undervoltage_wait] in H.
  - destruct (undervoltage st); [discriminate|]. now inversion H; subst.
  - destruct (undervoltage st).
    + apply (IH (wait_body cfg r st)); [|exact H].
      unfold wait_body. apply readSensors_inputCurrent.
    + now inversion H; subst.
Qed.

(** C8. [readSensors] sets [inputCurrent] to
    [outputCurrent * outputVoltage / inputVoltage / efficiency] for every
    input, with no test of the divisor; the undervoltage loop is entered only
    afterwards, so the state that reaches the controller chain carries that
    quotient.  With a zero reading on the panel side the divisor is zero and
    the quotient is NaN, already when the undervoltage condition is first
    evaluated; and since that condition also asks for [outputVoltage < 1.0],
    a panel voltage far below 15 V goes through to the controller chain. *)
Theorem C8_inputCurrent_division_unguarded :
  (forall cfg s st,
      let st' := readSensors cfg s st in
      inputCurrent st'
      = (outputCurrent st' * outputVoltage st' / inputVoltage st'
         / efficiency cfg)%F) /\
  (forall cfg s rs st sa,
      arbitration_point cfg s rs st = Some sa ->
      inputCurrent sa
      = (outputCurrent sa * outputVoltage sa / inputVoltage sa
         / efficiency cfg)%F) /\
  (forall b,
      let cfg := default_config b in
      let st' := readSensors cfg (mkSample 0 504 0) init in
      inputVoltage st' = zero /\ inputCurrent st' = S754_nan /\
      undervoltage st' = true /\
      arbitration_point cfg (mkSample 0 504 0) [] init = None) /\
  (forall b,
      let cfg := default_config b in
      let st' := readSensors cfg (mkSample 25 504 1) init in
      (inputVoltage st' < of_Z 2)%F = true /\ undervoltage st' = false /\
      arbitration_point cfg (mkSample 25 504 1) [] init = Some st').
Proof.
  split; [|split; [|split]].
  - intros cfg s st. apply readSensors_inputCurrent.
  - intros cfg s rs st sa H. unfold arbitration_point in H.
    eapply undervoltage_wait_inputCurrent; [|exact H].
    apply readSensors_inputCurrent.
  - intros []; vm_compute; repeat split.
  - intros []; vm_compute; repeat split.
Qed.

(** A cold start with mid-range readings reaches the controller chain. *)
Lemma C8_witness :
  let cfg := default_config MHz16 in
  let sa := readSensors cfg (mkSample 372 600 276) init in
  inputCurrent sa
  = (outputCurrent sa * outputVoltage sa / inputVoltage sa / efficiency cfg)%F.
Proof.
  intros cfg sa.
  apply (proj1 (proj2 C8_inputCurrent_division_unguarded)
           cfg (mkSample 372 600 276) [] init sa).
  vm_compute. reflexivity.
Defined.

(** ** The MPPT tracker *)

(** Comparisons of binary32 values. *)
Lemma SFcompare_antisym (x y : float) :
  SFcompare y x = option_map CompOpp (SFcompare x y).
Proof.
  destruct x as [[]|[]| |[] m e], y as [[]|[]| |[] m' e']; cbn; try reflexivity;
    assert (H : Pos.compare_cont Eq m' m = CompOpp (Pos.compare_cont Eq m m'))
      by (rewrite Pos.compare_cont_antisym; reflexivity);
    rewrite (Z.compare_antisym e e'), H;
    destruct (e ?= e'); cbn; try reflexivity;
    destruct (Pos.compare_cont Eq m m'); reflexivity.
Qed.

Lemma lt_le (x y : float) : (x < y)%F = true -> (x <= y)%F = true.
Proof.
  unfold lt, le, SFltb, SFleb.
  destruct (SFcompare x y) as [[]|]; congruence.
Qed.

Lemma le_not_gt (x y : float) : (x <= y)%F = true -> (x > y)%F = false.
Proof.
  unfold gt, le, SFltb, SFleb. rewrite (SFcompare_antisym x y).
  destruct (SFcompare x y) as [[]|]; cbn; congruence.
Qed.

Lemma lt_not_gt (x y : float) : (x < y)%F = true -> (x > y)%F = false.
Proof. intros H. apply le_not_gt, lt_le, H. Qed.

Section Tracker.

Variable cfg : Config.

Lemma direction_subloop_target (st : State) :
  targetPanelVoltage (direction_subloop cfg st)
  = if outside_limits cfg (stepped_target cfg st) then midpoint cfg else stepped_target cfg st.
Proof.
  unfold direction_subloop, outside_limits, stepped_target, midpoint.
  destruct st as [? ? ? ? ? ? ? ? ? ? ? ? ? td ? ? ? ? ? ? ? ?].
  cbn. destruct td; cbn;
    match goal with |- context [(?v <= minPanelVoltage cfg)%F] =>
      destruct (v <= minPanelVoltage cfg)%F; cbn; [reflexivity|];
      destruct (v >= maxPanelVoltage cfg)%F; cbn; [reflexivity|]
    end;
    match goal with |- context [if ?c then _ else _] => destruct c end;
    reflexivity.
Qed.

Lemma direction_subloop_direction (st : State) :
  trackingDownwards (direction_subloop cfg st)
  = if outside_limits cfg (stepped_target cfg st) then trackingDownwards st
    else if (powerDelta st < lit 1 10)%F then negb (trackingDownwards st)
         else trackingDownwards st.
Proof.
  unfold direction_subloop, outside_limits, stepped_target, powerDelta.
  destruct st as [? ? ? ? ? ? ? ? ? ? ? ? ? td ? ? ? ? ? ? ? ?].
  cbn. destruct td; cbn;
    match goal with |- context [(?v <= minPanelVoltage cfg)%F] =>
      destruct (v <= minPanelVoltage cfg)%F; cbn; [reflexivity|];
      destruct (v >= maxPanelVoltage cfg)%F; cbn; [reflexivity|]
    end;
    match goal with |- context [if ?c then _ else _] => destruct c end;
    reflexivity.
Qed.

Lemma direction_subloop_power (st : State) :
  outputPowerDelta (direction_subloop cfg st) = powerDelta st /\
  outputPowerPrevious (direction_subloop cfg st) = outputPower st.
Proof.
  unfold direction_subloop, powerDelta.
  cbn. destruct (trackingDownwards st); cbn;
    repeat match goal with |- context [if ?c then _ else _] => destruct c; cbn end;
    split; reflexivity.
Qed.

End Tracker.

Arguments direction_subloop : simpl never.

(** *** C5 *)

(** C5, as written, fails when the target sits at the minimum and the
    tracker is heading upwards: the step leads to 12.5 V, inside the range,
    and the target stays there instead of going to the midpoint 14 V. *)
Lemma C5_counterexample :
  let cfg := default_config MHz16 in
  let st := set_targetPanelVoltage (minPanelVoltage cfg) init in
  targetPanelVoltage st = minPanelVoltage cfg /\
  trackingDownwards st = false /\
  targetPanelVoltage (direction_subloop cfg st) = lit 125 10 /\
  targetPanelVoltage (direction_subloop cfg st) <> midpoint cfg.
Proof. vm_compute. repeat split. discriminate. Qed.

(** C5 (amended). The direction sub-loop first moves [targetPanelVoltage] by
    [trackingIncrement] in the current direction; if the stepped value is at
    or below [minPanelVoltage] or at or above [maxPanelVoltage] the target
    becomes [(minPanelVoltage + maxPanelVoltage) / 2] and the direction is
    left as it was (no gradient check); otherwise the stepped value is kept.
    In particular a target at [minPanelVoltage] while tracking downwards, or
    at [maxPanelVoltage] while tracking upwards, goes to the midpoint (with
    the sketch's configuration: from 12 V down, or from 16 V up, to 14 V),
    and whenever the midpoint lies within the limits the new target is
    neither below the minimum nor above the maximum. *)
Theorem C5_target_snaps_to_midpoint (cfg : Config) (st : State) :
  let v := stepped_target cfg st in
  let st' := direction_subloop cfg st in
  ((v <= minPanelVoltage cfg)%F = true \/ (v >= maxPanelVoltage cfg)%F = true ->
   targetPanelVoltage st' = midpoint cfg /\
   trackingDownwards st' = trackingDownwards st) /\
  ((v <= minPanelVoltage cfg)%F = false -> (v >= maxPanelVoltage cfg)%F = false ->
   targetPanelVoltage st' = v) /\
  (targetPanelVoltage st = minPanelVoltage cfg -> trackingDownwards st = true ->
   (minPanelVoltage cfg - trackingIncrement cfg <= minPanelVoltage cfg)%F = true ->
   targetPanelVoltage st' = midpoint cfg) /\
  (targetPanelVoltage st = maxPanelVoltage cfg -> trackingDownwards st = false ->
   (maxPanelVoltage cfg + trackingIncrement cfg >= maxPanelVoltage cfg)%F = true ->
   targetPanelVoltage st' = midpoint cfg) /\
  ((midpoint cfg < minPanelVoltage cfg)%F = false ->
   (targetPanelVoltage st' < minPanelVoltage cfg)%F = false) /\
  ((midpoint cfg > maxPanelVoltage cfg)%F = false ->
   (targetPanelVoltage st' > maxPanelVoltage cfg)%F = false) /\
  (forall b, cfg = default_config b ->
     (targetPanelVoltage st = of_Z 12 /\ trackingDownwards st = true \/
      targetPanelVoltage st = of_Z 16 /\ trackingDownwards st = false) ->
     targetPanelVoltage st' = of_Z 14).
Proof.
  intros v st'. subst st'.
  rewrite direction_subloop_target, direction_subloop_direction.
  fold v. unfold outside_limits.
  repeat split.
  - destruct H as [H|H]; rewrite H; [|rewrite orb_true_r]; reflexivity.
  - destruct H as [H|H]; rewrite H; [|rewrite orb_true_r]; reflexivity.
  - intros H1 H2. rewrite H1, H2. reflexivity.
  - intros Ht Hd Hle. subst v. unfold stepped_target.
    rewrite Hd, Ht, Hle. reflexivity.
  - intros Ht Hd Hge. subst v. unfold stepped_target.
    rewrite Hd, Ht, Hge, orb_true_r. reflexivity.
  - intros Hm.
    destruct (v <= minPanelVoltage cfg)%F eqn:E1; cbn [orb]; [exact Hm|].
    destruct (v >= maxPanelVoltage cfg)%F; [exact Hm|].
    destruct (v < minPanelVoltage cfg)%F eqn:E2; [|reflexivity].
    apply lt_le in E2. congruence.
  - intros Hm.
    destruct (v <= minPanelVoltage cfg)%F; cbn [orb]; [exact Hm|].
    destruct (v >= maxPanelVoltage cfg)%F eqn:E1; [exact Hm|].
    destruct (v > maxPanelVoltage cfg)%F eqn:E2; [|reflexivity].
    unfold gt in E2. apply lt_le in E2. unfold ge in E1. unfold le in E2.
    congruence.
  - intros b -> [[Ht Hd]|[Ht Hd]]; subst v; unfold stepped_target;
      rewrite Hd, Ht; vm_compute; reflexivity.
Qed.

(** From 12 V while tracking downwards the step leads to 11.5 V. *)
Lemma C5_witness :
  let cfg := default_config MHz16 in
  let st := set_trackingDownwards true
              (set_targetPanelVoltage (minPanelVoltage cfg) init) in
  targetPanelVoltage (direction_subloop cfg st) = midpoint cfg.
Proof.
  intros cfg st.
  refine (proj1 (proj2 (proj2 (C5_target_snaps_to_midpoint cfg st))) _ _ _);
    vm_compute; reflexivity.
Defined.

(** *** C6 *)

(** C6. When the stepped target stays strictly inside
    ([minPanelVoltage], [maxPanelVoltage]), the direction sub-loop negates
    [trackingDownwards] exactly when
    [outputPower - outputPowerPrevious < 0.1]; in particular a power delta of
    -0.5 with [trackingDownwards = false] makes it [true]. *)
Theorem C6_direction_flips_below_threshold (cfg : Config) (st : State) :
  let v := stepped_target cfg st in
  let st' := direction_subloop cfg st in
  (v <= minPanelVoltage cfg)%F = false ->
  (v >= maxPanelVoltage cfg)%F = false ->
  outputPowerDelta st' = (outputPower st - outputPowerPrevious st)%F /\
  (trackingDownwards st' = negb (trackingDownwards st) <->
   (outputPower st - outputPowerPrevious st < lit 1 10)%F = true) /\
  ((outputPower st - outputPowerPrevious st)%F = lit (-5) 10 ->
   trackingDownwards st = false -> trackingDownwards st' = true).
Proof.
  intros v st' H1 H2. subst st'.
  rewrite direction_subloop_direction.
  rewrite (proj1 (direction_subloop_power cfg st)).
  unfold outside_limits. fold v. rewrite H1, H2. cbn [orb].
  unfold powerDelta. repeat split.
  - destruct (outputPower st - outputPowerPrevious st < lit 1 10)%F;
      [reflexivity|]. destruct (trackingDownwards st); discriminate.
  - intros ->. reflexivity.
  - intros -> ->. vm_compute. reflexivity.
Qed.

(** Power falls from 0.5 W to 0 W while the target goes from 14 V to 14.5 V. *)
Lemma C6_witness :
  let cfg := default_config MHz16 in
  let st := set_outputPowerPrevious (lit 5 10) init in
  trackingDownwards (direction_subloop cfg st) = true.
Proof.
  intros cfg st.
  refine (proj2 (proj2 (C6_direction_flips_below_threshold cfg st _ _)) _ _);
    vm_compute; reflexivity.
Defined.

(** ** Mode arbitration *)

Section ModeArbitration.

Variable cfg : Config.

Lemma direction_subloop_frame_irrelevant (st : State) (m t : Z) :
  targetPanelVoltage (direction_subloop cfg (set_lastMppt t (set_controlMode m st)))
  = targetPanelVoltage (direction_subloop cfg st).
Proof.
  rewrite !direction_subloop_target. reflexivity.
Qed.

Lemma mppt_branch_mode (st : State) : controlMode (mppt_branch cfg st) = MPPT.
Proof.
  unfold mppt_branch, convergence_subloop. cbv zeta.
  set (s0 := set_controlMode MPPT st).
  destruct (direction_subloop_snapshot cfg (set_lastMppt (millis s0) s0))
    as (_ & _ & _ & _ & _ & _ & _ & _ & Hm & _).
  cbv zeta in Hm.
  destruct (1000 <=? usub (millis s0) (lastMppt s0));
    match goal with |- context [if ?c then _ else _] => destruct c end;
    cbn [controlMode set_pwm set_lastCalc]; try rewrite Hm; reflexivity.
Qed.

Lemma mppt_branch_pwm (st : State) : pwm (mppt_branch cfg st) = mode_pwm cfg MPPT st.
Proof.
  unfold mppt_branch, mode_pwm, convergence_subloop. cbv zeta.
  change (MPPT =? CV) with false. change (MPPT =? CC) with false.
  change (MPPT =? BP) with false. cbv iota.
  set (s0 := set_controlMode MPPT st).
  change (millis s0) with (millis st). change (lastMppt s0) with (lastMppt st).
  pose proof (direction_subloop_snapshot cfg (set_lastMppt (millis st) s0))
    as (_ & _ & Hi & _ & _ & Hp & _ & Hc & _ & Hl).
  cbv zeta in Hi, Hp, Hc, Hl.
  pose proof (direction_subloop_frame_irrelevant st MPPT (millis st)) as Ht.
  fold s0 in Ht.
  destruct (1000 <=? usub (millis st) (lastMppt st)).
  - set (d := direction_subloop cfg (set_lastMppt (millis st) s0)) in *.
    assert (Hmil : millis d = millis st) by (unfold millis; rewrite Hc; reflexivity).
    rewrite Hmil, Hl.
    change (lastCalc (set_lastMppt (millis st) s0)) with (lastCalc st).
    destruct (50 <=? usub (millis st) (lastCalc st));
      cbn [pwm set_pwm set_lastCalc targetPanelVoltage inputVoltage].
    + rewrite Hp, Hi, Ht. reflexivity.
    + rewrite Hp. reflexivity.
  - change (millis s0) with (millis st). change (lastCalc s0) with (lastCalc st).
    destruct (50 <=? usub (millis st) (lastCalc st)); reflexivity.
Qed.

(** The chain sets [controlMode] to the first mode whose predicate holds. *)
Lemma controllers_mode (st : State) :
  controlMode (controllers cfg st)
  = if cv_pred cfg st then CV else if cc_pred cfg st then CC
    else if bp_pred cfg st then BP else MPPT.
Proof.
  unfold controllers, cv_pred, cc_pred, bp_pred.
  repeat match goal with
         | |- context [if ?c && ?d then _ else _] => destruct (c && d)
         end;
    try apply mppt_branch_mode;
    unfold cv_branch, cc_branch, bp_branch; cbn;
    repeat match goal with |- context [if ?c then _ else _] => destruct c end;
    reflexivity.
Qed.

(** ... and runs the branch of that mode, and no other. *)
Lemma controllers_run (st : State) :
  controllers cfg st = run_mode cfg (controlMode (controllers cfg st)) st.
Proof.
  rewrite controllers_mode. unfold controllers, cv_pred, cc_pred, bp_pred, run_mode.
  repeat match goal with
         | |- context [if ?c && ?d then _ else _] => destruct (c && d)
         end; reflexivity.
Qed.

Lemma run_mode_pwm (m : Z) (st : State) :
  pwm (run_mode cfg m st) = mode_pwm cfg m st.
Proof.
  unfold run_mode.
  destruct (m =? CV) eqn:E1; [|destruct (m =? CC) eqn:E2; [|destruct (m =? BP) eqn:E3]].
  - unfold mode_pwm. rewrite E1. unfold cv_branch. cbn.
    destruct (inputVoltage st < minPanelVoltage cfg)%F; reflexivity.
  - unfold mode_pwm. rewrite E1, E2. reflexivity.
  - unfold mode_pwm. rewrite E1, E2, E3. reflexivity.
  - rewrite mppt_branch_pwm. unfold mode_pwm. rewrite E1, E2, E3.
    change (MPPT =? CV) with false. change (MPPT =? CC) with false.
    change (MPPT =? BP) with false. reflexivity.
Qed.

(** The predicates exclude one another: the priority order never has to
    break a tie between CV and the current-limited modes, nor between CC and
    BP. *)
Lemma mode_predicates_disjoint (st : State) :
  (cv_pred cfg st = true -> cc_pred cfg st = false /\ bp_pred cfg st = false) /\
  (cc_pred cfg st = true -> bp_pred cfg st = false).
Proof.
  unfold cv_pred, cc_pred, bp_pred. split.
  - intros H. apply andb_prop in H as [_ H].
    rewrite (le_not_gt _ _ H). split; reflexivity.
  - intros H. apply andb_prop in H as [_ H].
    rewrite (lt_not_gt _ _ H). apply andb_false_r.
Qed.

End ModeArbitration.

(** ** One call of [mppt()] *)

Lemma mppt_inv (cfg : Config) (s : Sample) (rs : list Resample) (st st' : State) :
  mppt cfg s rs st = Some st' ->
  exists sa, arbitration_point cfg s rs st = Some sa /\
             st' = write_output (protection (controllers cfg sa)).
Proof.
  unfold mppt. destruct (arbitration_point cfg s rs st) as [sa|]; [|discriminate].
  intros H. inversion H. exists sa. split; reflexivity.
Qed.

(** The loop is left only with its condition false. *)
Lemma undervoltage_wait_clear (cfg : Config) (rs : list Resample) :
  forall st sa, undervoltage_wait cfg rs st = Some sa -> undervoltage sa = false.
Proof.
  induction rs as [|r rs IH]; intros st sa H; cbn [undervoltage_wait] in H;
    destruct (undervoltage st) eqn:E; try discriminate.
  - now inversion H; subst.
  - eapply IH, H.
  - now inversion H; subst.
Qed.

(** *** C1 *)

(** C1. A call of [mppt()] that gets past the undervoltage loop runs the
    controller chain on the snapshot [sa] it then holds.  The chain tests
    the predicates in the order CV, CC, BP and sets [controlMode] to the
    first that holds, to MPPT when none does; so [controlMode] is one of the
    four codes, it is CV, CC, BP or MPPT exactly under the stated
    conditions, the branch that ran is the branch of that mode and of no
    other, and the duty-cycle accumulator it leaves is the one the arithmetic
    of that mode gives.  The rest of the call keeps mode and snapshot. *)
Theorem C1_mode_arbitration (cfg : Config) (s : Sample) (rs : list Resample)
    (st st' : State) :
  mppt cfg s rs st = Some st' ->
  exists sa,
    arbitration_point cfg s rs st = Some sa /\
    (outputVoltage st' = outputVoltage sa /\ outputCurrent st' = outputCurrent sa /\
     inputVoltage st' = inputVoltage sa /\
     targetOutputVoltage st' = targetOutputVoltage sa) /\
    In (controlMode st') [CV; CC; BP; MPPT] /\
    (controlMode st' = CV <-> cv_pred cfg sa = true) /\
    (controlMode st' = CC <-> cv_pred cfg sa = false /\ cc_pred cfg sa = true) /\
    (controlMode st' = BP <->
     cv_pred cfg sa = false /\ cc_pred cfg sa = false /\ bp_pred cfg sa = true) /\
    (controlMode st' = MPPT <->
     cv_pred cfg sa = false /\ cc_pred cfg sa = false /\ bp_pred cfg sa = false) /\
    controllers cfg sa = run_mode cfg (controlMode st') sa /\
    pwm (controllers cfg sa) = mode_pwm cfg (controlMode st') sa.
Proof.
  intros H. apply mppt_inv in H as (sa & Ha & ->). exists sa.
  split; [exact Ha|].
  pose proof (write_output_snapshot (protection (controllers cfg sa)))
    as (W1 & W2 & W3 & _ & W5 & W6 & _).
  pose proof (protection_snapshot (controllers cfg sa))
    as (P1 & P2 & P3 & _ & P5 & P6 & _).
  pose proof (controllers_snapshot cfg sa) as (C1 & C2 & C3 & _ & C5 & _).
  cbv zeta in *.
  split; [repeat split; congruence|].
  assert (Hm : controlMode (write_output (protection (controllers cfg sa)))
               = controlMode (controllers cfg sa)) by congruence.
  rewrite Hm. clear - cfg.
  split; [|split; [|split; [|split; [|split; [|split]]]]].
  - rewrite controllers_mode.
    destruct (cv_pred cfg sa), (cc_pred cfg sa), (bp_pred cfg sa); cbn; tauto.
  - rewrite controllers_mode.
    destruct (cv_pred cfg sa), (cc_pred cfg sa), (bp_pred cfg sa);
      split; intros; try reflexivity; discriminate.
  - rewrite controllers_mode.
    destruct (cv_pred cfg sa), (cc_pred cfg sa), (bp_pred cfg sa);
      split; intros H; try (split; reflexivity); try discriminate;
      destruct H; discriminate.
  - rewrite controllers_mode.
    destruct (cv_pred cfg sa), (cc_pred cfg sa), (bp_pred cfg sa);
      split; intros H; try (repeat split; reflexivity); try discriminate;
      destruct H as (? & ? & ?); discriminate.
  - rewrite controllers_mode.
    destruct (cv_pred cfg sa), (cc_pred cfg sa), (bp_pred cfg sa);
      split; intros H; try (repeat split; reflexivity); try discriminate;
      destruct H as (? & ? & ?); discriminate.
  - apply controllers_run.
  - rewrite (controllers_run cfg sa) at 1. apply run_mode_pwm.
Qed.

(** A cold start at 18 V on the panel and 4.5 V on the output: CV mode. *)
Lemma C1_witness :
  let cfg := default_config MHz16 in
  let st' := write_output (protection (controllers cfg
               (readSensors cfg (mkSample 372 504 276) (readPot 0 init)))) in
  mppt cfg (mkSample 372 504 276) [] (readPot 0 init) = Some st' /\
  In (controlMode st') [CV; CC; BP; MPPT].
Proof.
  intros cfg st'.
  assert (H : mppt cfg (mkSample 372 504 276) [] (readPot 0 init) = Some st')
    by (vm_compute; reflexivity).
  split; [exact H|].
  destruct (C1_mode_arbitration cfg (mkSample 372 504 276) []
              (readPot 0 init) st' H) as (sa & _ & _ & Hin & _).
  exact Hin.
Defined.

(** ** The undervoltage loop *)

Section UndervoltageWait.

Variable cfg : Config.

(** One pass: the duty cycle is forced to 0 and written, two seconds go by,
    the supply voltage is read again if the last reading is a second old,
    the sensors are read again; mode and tracker state are not touched. *)
Lemma wait_body_effect (r : Resample) (st : State) :
  let st' := wait_body cfg r st in
  pwm st' = zero /\ pwmOut st' = zero :: pwmOut st /\
  clock st' = clock st + 2000 /\
  controlMode st' = controlMode st /\
  targetPanelVoltage st' = targetPanelVoltage st /\
  trackingDownwards st' = trackingDownwards st /\
  targetOutputVoltage st' = targetOutputVoltage st /\
  vcc st' = (if 1000 <=? usub ((clock st + 2000) mod 2 ^ 32) (lastVcc st)
             then (of_Z (r_vccmv r) / of_Z 1000)%F else vcc st) /\
  inputVoltage st' = (of_Z (aVsenseIn (r_sample r)) * vcc st' / of_Z 93)%F /\
  outputVoltage st'
  = (inputVoltage st' - of_Z (aVsenseOut (r_sample r)) * vcc st' / of_Z 92)%F.
Proof.
  unfold wait_body. cbv zeta.
  set (s1 := delay 2000 (analogWrite (pwm (set_pwm (of_Z 0) st)) (set_pwm (of_Z 0) st))).
  pose proof (readSensors_frame cfg (r_sample r) (checkVcc (r_vccmv r) s1))
    as (F1 & F2 & F3 & F4 & F5 & F6 & F7 & F8 & _).
  pose proof (checkVcc_frame (r_vccmv r) s1)
    as (K1 & K2 & K3 & K4 & K5 & K6 & K7 & _).
  cbv zeta in *.
  rewrite F1, F2, F3, F4, F5, F6, F7, F8, K1, K2, K3, K4, K5, K6, K7.
  rewrite readSensors_outputVoltage, readSensors_inputVoltage.
  repeat split.
  unfold checkVcc. change (millis s1) with ((clock st + 2000) mod 2 ^ 32).
  change (lastVcc s1) with (lastVcc st).
  destruct (1000 <=? usub ((clock st + 2000) mod 2 ^ 32) (lastVcc st));
    reflexivity.
Qed.

Lemma wait_passes_app (rs1 rs2 : list Resample) (st : State) :
  wait_passes cfg (rs1 ++ rs2) st = wait_passes cfg rs2 (wait_passes cfg rs1 st).
Proof. apply fold_left_app. Qed.

Lemma wait_passes_effect (rs : list Resample) :
  forall st,
    let st' := wait_passes cfg rs st in
    (rs <> [] -> pwm st' = zero) /\
    pwmOut st' = repeat zero (length rs) ++ pwmOut st /\
    clock st' = clock st + 2000 * Z.of_nat (length rs) /\
    controlMode st' = controlMode st /\
    targetPanelVoltage st' = targetPanelVoltage st /\
    trackingDownwards st' = trackingDownwards st /\
    targetOutputVoltage st' = targetOutputVoltage st.
Proof.
  induction rs as [|r rs IH] using rev_ind; intros st.
  - cbn. repeat split; try reflexivity; [congruence|lia].
  - cbv zeta. rewrite wait_passes_app. cbn [wait_passes fold_left].
    fold (wait_passes cfg rs st).
    pose proof (wait_body_effect r (wait_passes cfg rs st))
      as (B1 & B2 & B3 & B4 & B5 & B6 & B7 & _).
    destruct (IH st) as (_ & I2 & I3 & I4 & I5 & I6 & I7).
    cbv zeta in *.
    rewrite B2, B3, B4, B5, B6, B7, I2, I3, I4, I5, I6, I7.
    rewrite length_app, repeat_app. cbn [length repeat].
    repeat split; try reflexivity.
    + intros _. exact B1.
    + rewrite <- repeat_cons. reflexivity.
    + lia.
Qed.

(** The loop keeps going as long as its condition holds and stops at the
    first re-sample that clears it. *)
Lemma undervoltage_wait_run (rs : list Resample) :
  forall st,
    (forall k, (k < length rs)%nat ->
               undervoltage (wait_passes cfg (firstn k rs) st) = true) ->
    undervoltage_wait cfg rs st
    = if undervoltage (wait_passes cfg rs st) then None
      else Some (wait_passes cfg rs st).
Proof.
  induction rs as [|r rs IH]; intros st H.
  - cbn. destruct (undervoltage st); reflexivity.
  - cbn [undervoltage_wait].
    assert (H0 : undervoltage st = true) by (apply (H 0%nat); cbn; lia).
    rewrite H0. rewrite IH; [reflexivity|].
    intros k Hk. apply (H (S k)). cbn. lia.
Qed.

(** Conversely the state on which the loop stops is reached by a number of
    passes, with the condition true before each of them. *)
Lemma undervoltage_wait_inv (rs : list Resample) :
  forall st sa,
    undervoltage_wait cfg rs st = Some sa ->
    exists n, (n <= length rs)%nat /\ sa = wait_passes cfg (firstn n rs) st /\
              (forall k, (k < n)%nat ->
                         undervoltage (wait_passes cfg (firstn k rs) st) = true) /\
              undervoltage sa = false.
Proof.
  induction rs as [|r rs IH]; intros st sa H; cbn [undervoltage_wait] in H;
    destruct (undervoltage st) eqn:E; try discriminate.
  - inversion H; subst. exists 0%nat. repeat split; [lia|lia|exact E].
  - apply IH in H as (n & Hn & -> & Hk & Hc). exists (S n).
    repeat split; [cbn; lia| |exact Hc].
    intros [|k] Hlt; [exact E|]. apply Hk. lia.
  - inversion H; subst. exists 0%nat. repeat split; [cbn; lia|lia|exact E].
Qed.

(** What the loop as a whole does. *)
Lemma undervoltage_wait_effect (rs : list Resample) (st sa : State) :
  undervoltage_wait cfg rs st = Some sa ->
  exists n, (n <= length rs)%nat /\
    (n = 0%nat -> sa = st) /\ (n <> 0%nat -> pwm sa = zero) /\
    pwmOut sa = repeat zero n ++ pwmOut st /\
    clock sa = clock st + 2000 * Z.of_nat n /\
    controlMode sa = controlMode st /\
    targetPanelVoltage sa = targetPanelVoltage st /\
    trackingDownwards sa = trackingDownwards st /\
    targetOutputVoltage sa = targetOutputVoltage st.
Proof.
  intros H. apply undervoltage_wait_inv in H as (n & Hn & -> & _ & _).
  exists n. split; [exact Hn|].
  pose proof (wait_passes_effect (firstn n rs) st) as (E1 & E2 & E3 & E4).
  cbv zeta in *. rewrite length_firstn, Nat.min_l in E2, E3 by exact Hn.
  split; [intros ->; reflexivity|].
  split; [|repeat split; tauto].
  intros Hn0. apply E1. destruct n; [congruence|].
  destruct rs; [cbn in Hn; lia|discriminate].
Qed.

End UndervoltageWait.

Lemma firstn_snoc {A : Type} (l : list A) :
  forall k x, nth_error l k = Some x -> firstn (S k) l = firstn k l ++ [x].
Proof.
  induction l as [|a l IH]; intros [|k] x H; cbn in H; try discriminate.
  - inversion H. reflexivity.
  - cbn [firstn app]. f_equal. apply IH, H.
Qed.

(** *** C7 *)

(** C7. Let the sensors, once read, show [outputVoltage < 1.0] and
    [inputVoltage < 15.0], and let the condition hold again after each
    re-sample but possibly the last.  Then the call does not reach the
    controller chain while the condition holds: with the condition still
    true after the last re-sample supplied the call has not returned, and
    otherwise the chain runs on the state the last re-sample leaves.  After
    [k] passes of the wait the accumulator is 0, [k] zeros have been written
    to the PWM output, 2000 ms have gone by per pass, and [controlMode],
    [targetPanelVoltage] and [trackingDownwards] are what they were before
    the call; each pass reads the sensors again, with the supply voltage
    read again when its last reading is at least a second old. *)
Theorem C7_undervoltage_wait (cfg : Config) (s : Sample) (rs : list Resample)
    (st0 : State) :
  let st := readSensors cfg s st0 in
  undervoltage st = true ->
  (forall k, (k < length rs)%nat ->
             undervoltage (wait_passes cfg (firstn k rs) st) = true) ->
  let st' := wait_passes cfg rs st in
  (undervoltage st' = true ->
   arbitration_point cfg s rs st0 = None /\ mppt cfg s rs st0 = None) /\
  (undervoltage st' = false ->
   arbitration_point cfg s rs st0 = Some st' /\
   mppt cfg s rs st0 = Some (write_output (protection (controllers cfg st')))) /\
  (forall k, (k <= length rs)%nat ->
     let sk := wait_passes cfg (firstn k rs) st in
     (k <> 0%nat -> pwm sk = zero) /\
     pwmOut sk = repeat zero k ++ pwmOut st0 /\
     clock sk = clock st0 + 2000 * Z.of_nat k /\
     controlMode sk = controlMode st0 /\
     targetPanelVoltage sk = targetPanelVoltage st0 /\
     trackingDownwards sk = trackingDownwards st0) /\
  (forall k r, nth_error rs k = Some r ->
     let sk := wait_passes cfg (firstn k rs) st in
     let sk' := wait_passes cfg (firstn (S k) rs) st in
     vcc sk' = (if 1000 <=? usub ((clock sk + 2000) mod 2 ^ 32) (lastVcc sk)
                then (of_Z (r_vccmv r) / of_Z 1000)%F else vcc sk) /\
     inputVoltage sk' = (of_Z (aVsenseIn (r_sample r)) * vcc sk' / of_Z 93)%F /\
     outputVoltage sk'
     = (inputVoltage sk' - of_Z (aVsenseOut (r_sample r)) * vcc sk' / of_Z 92)%F).
Proof.
  intros st Hu Hall st'.
  pose proof (undervoltage_wait_run cfg rs st Hall) as Hrun. fold st' in Hrun.
  split; [|split; [|split]].
  - intros E. unfold mppt, arbitration_point. fold st. rewrite Hrun, E.
    split; reflexivity.
  - intros E. unfold mppt, arbitration_point. fold st. rewrite Hrun, E.
    split; reflexivity.
  - intros k Hk sk.
    pose proof (wait_passes_effect cfg (firstn k rs) st)
      as (E1 & E2 & E3 & E4 & E5 & E6 & _).
    cbv zeta in *. rewrite length_firstn, Nat.min_l in E2, E3 by exact Hk.
    fold sk in E1, E2, E3, E4, E5, E6.
    destruct (readSensors_frame cfg s st0)
      as (_ & F2 & F3 & F4 & _ & _ & F7 & F8 & _).
    cbv zeta in *. fold st in F2, F3, F4, F7, F8.
    rewrite E2, E3, E4, E5, E6, F2, F3, F4, F7, F8.
    repeat split. intros Hk0. apply E1.
    destruct k; [congruence|]. destruct rs; [cbn in Hk; lia|discriminate].
  - intros k r Hr sk sk'. subst sk'.
    rewrite (firstn_snoc rs k r Hr), wait_passes_app.
    cbn [wait_passes fold_left]. fold (wait_passes cfg (firstn k rs) st).
    fold sk.
    pose proof (wait_body_effect cfg r sk) as (_ & _ & _ & _ & _ & _ & _ & B).
    exact B.
Qed.

(** Dusk at a cold start: 9.7 V on the panel, 0.4 V on the output; the first
    re-sample finds 18 V and 4.5 V. *)
Lemma C7_witness :
  let cfg := default_config MHz16 in
  let s := mkSample 200 504 190 in
  let rs := [mkResample 4500 (mkSample 372 504 276)] in
  arbitration_point cfg s [] init = None /\
  arbitration_point cfg s rs init
  = Some (wait_passes cfg rs (readSensors cfg s init)).
Proof.
  intros cfg s rs. split.
  - refine (proj1 (proj1 (C7_undervoltage_wait cfg s [] init _ _) _)).
    + vm_compute. reflexivity.
    + intros k Hk. cbn in Hk. lia.
    + vm_compute. reflexivity.
  - refine (proj1 (proj1 (proj2 (C7_undervoltage_wait cfg s rs init _ _)) _)).
    + vm_compute. reflexivity.
    + intros [|k] Hk; [vm_compute; reflexivity|cbn in Hk; lia].
    + vm_compute. reflexivity.
Defined.

(** *** C9 *)

(** The re-acquisition of a pass of the undervoltage loop multiplies the
    voltage of the acquisition before it. *)
Lemma wait_body_outputPower (cfg : Config) (r : Resample) (st : State) :
  outputPower (wait_body cfg r st)
  = (outputVoltage st * outputCurrent (wait_body cfg r st))%F.
Proof.
  unfold wait_body. cbv zeta. rewrite readSensors_outputPower.
  set (s1 := delay 2000 (analogWrite (pwm (set_pwm (of_Z 0) st)) (set_pwm (of_Z 0) st))).
  destruct (checkVcc_frame (r_vccmv r) s1)
    as (_ & _ & _ & _ & _ & _ & _ & K & _).
  cbv zeta in K. rewrite K. reflexivity.
Qed.


(** C9, as written, fails on a pass that waits: the pass below follows one
    that left 4.5 V, reads 0.4 V first and waits, and its [outputPower] is
    the current times that 0.4 V of its own first acquisition, not times the
    4.5 V of the previous pass. *)
Lemma C9_counterexample :
  let cfg := default_config MHz16 in
  match loop cfg steady_pass init with
  | Some st1 =>
      match loop cfg waiting_pass st1 with
      | Some st2 =>
          outputPower st2 <> (outputVoltage st1 * outputCurrent st2)%F /\
          outputPower st2
          = (outputVoltage (readSensors cfg (first waiting_pass)
                              (readPot (aPot waiting_pass)
                                 (delay (elapsed waiting_pass) st1)))
             * outputCurrent st2)%F
      | None => False
      end
  | None => False
  end.
Proof. vm_compute. split; [discriminate|reflexivity]. Qed.


(** C9 (amended). Every sensor acquisition computes [outputPower] as the
    product of the [outputCurrent] it has just measured with the
    [outputVoltage] left by the acquisition before it, and only then
    recomputes [outputVoltage].  A pass of [loop()] that does not wait
    returns with [outputPower] equal to the previous pass's [outputVoltage]
    times its own [outputCurrent]; a pass that waits returns with
    [outputPower] equal to the [outputVoltage] of its own last but one
    acquisition times the [outputCurrent] of the last. *)
Theorem C9_outputPower_lags_outputVoltage (cfg : Config) :
  (forall s st,
      outputPower (readSensors cfg s st)
      = (outputVoltage st * outputCurrent (readSensors cfg s st))%F /\
      outputVoltage (readSensors cfg s st)
      = (inputVoltage (readSensors cfg s st)
         - of_Z (aVsenseOut s) * vcc st / of_Z 92)%F) /\
  (forall i st,
      undervoltage
        (readSensors cfg (first i) (readPot (aPot i) (delay (elapsed i) st)))
      = false ->
      exists st', loop cfg i st = Some st' /\
        outputPower st' = (outputVoltage st * outputCurrent st')%F) /\
  (forall i rs r st,
      resamples i = rs ++ [r] ->
      let sa0 := readSensors cfg (first i)
                   (readPot (aPot i) (delay (elapsed i) st)) in
      (forall k, (k < length (rs ++ [r]))%nat ->
                 undervoltage (wait_passes cfg (firstn k (rs ++ [r])) sa0) = true) ->
      undervoltage (wait_passes cfg (rs ++ [r]) sa0) = false ->
      exists st', loop cfg i st = Some st' /\
        outputPower st'
        = (outputVoltage (wait_passes cfg rs sa0) * outputCurrent st')%F).
Proof.
  split; [|split].
  - intros s st. split;
      [apply readSensors_outputPower|apply readSensors_outputVoltage].
  - intros i st H. rewrite (loop_no_wait cfg i st H).
    eexists. split; [reflexivity|].
    set (sa := readSensors cfg (first i) (readPot (aPot i) (delay (elapsed i) st))).
    destruct (checkVcc_frame (vccmv i)
                (write_output (protection (controllers cfg sa))))
      as (_ & _ & _ & _ & _ & _ & _ & _ & Hp & Hc & _).
    cbv zeta in Hp, Hc. rewrite Hp, Hc.
    destruct (write_output_snapshot (protection (controllers cfg sa)))
      as (_ & Hc1 & _ & Hp1 & _).
    cbv zeta in Hp1, Hc1. rewrite Hp1, Hc1.
    destruct (protection_snapshot (controllers cfg sa))
      as (_ & Hc2 & _ & Hp2 & _).
    cbv zeta in Hp2, Hc2. rewrite Hp2, Hc2.
    destruct (controllers_snapshot cfg sa) as (_ & Hc3 & _ & Hp3 & _).
    cbv zeta in Hp3, Hc3. rewrite Hp3, Hc3.
    subst sa. rewrite readSensors_outputPower. reflexivity.
  - intros i rs r st Hrs sa0 Hall Hu.
    pose proof (undervoltage_wait_run cfg (rs ++ [r]) sa0 Hall) as Hrun.
    rewrite Hu in Hrun.
    set (sa := wait_passes cfg (rs ++ [r]) sa0) in *.
    exists (checkVcc (vccmv i) (write_output (protection (controllers cfg sa)))).
    split.
    + unfold loop, mppt, arbitration_point. cbv zeta. fold sa0.
      rewrite Hrs, Hrun. reflexivity.
    + destruct (checkVcc_frame (vccmv i)
                  (write_output (protection (controllers cfg sa))))
        as (_ & _ & _ & _ & _ & _ & _ & _ & Hp & Hc & _).
      cbv zeta in Hp, Hc. rewrite Hp, Hc.
      destruct (write_output_snapshot (protection (controllers cfg sa)))
        as (_ & Hc1 & _ & Hp1 & _).
      cbv zeta in Hp1, Hc1. rewrite Hp1, Hc1.
      destruct (protection_snapshot (controllers cfg sa))
        as (_ & Hc2 & _ & Hp2 & _).
      cbv zeta in Hp2, Hc2. rewrite Hp2, Hc2.
      destruct (controllers_snapshot cfg sa) as (_ & Hc3 & _ & Hp3 & _).
      cbv zeta in Hp3, Hc3. rewrite Hp3, Hc3.
      subst sa. rewrite wait_passes_app. cbn [wait_passes fold_left].
      fold (wait_passes cfg rs sa0). apply wait_body_outputPower.
Qed.


(** After a steady pass that leaves 4.5 V: a second steady pass multiplies
    those 4.5 V; a waiting pass multiplies the voltage of its own first
    acquisition. *)
Lemma C9_witness :
  let cfg := default_config MHz16 in
  match loop cfg steady_pass init with
  | Some st1 =>
      outputVoltage st1 = lit 45 10 /\
      (exists st2, loop cfg steady_pass st1 = Some st2 /\
         outputPower st2 = (outputVoltage st1 * outputCurrent st2)%F) /\
      (exists st2, loop cfg waiting_pass st1 = Some st2 /\
         outputPower st2
         = (outputVoltage
              (wait_passes cfg []
                 (readSensors cfg (first waiting_pass)
                    (readPot (aPot waiting_pass)
                       (delay (elapsed waiting_pass) st1))))
            * outputCurrent st2)%F)
  | None => False
  end.
Proof.
  intros cfg.
  destruct (loop cfg steady_pass init) as [st1|] eqn:E;
    [|vm_compute in E; discriminate].
  vm_compute in E. inversion E as [E1]. clear E. split; [|split].
  - vm_compute. reflexivity.
  - apply (proj1 (proj2 (C9_outputPower_lags_outputVoltage cfg)) steady_pass).
    vm_compute. reflexivity.
  - apply (proj2 (proj2 (C9_outputPower_lags_outputVoltage cfg)) waiting_pass []
             (mkResample 4500 (mkSample 372 600 276))).
    + reflexivity.
    + intros k Hk. destruct k; [vm_compute; reflexivity|cbn in Hk; lia].
    + vm_compute. reflexivity.
Defined.

(** ** Overvoltage protection and the output stage *)

(** After a lockout the output stage finds the accumulator at 0 and writes
    it a second time. *)
Lemma protection_lockout (st : State) :
  overvoltage st = true ->
  let st' := write_output (protection st) in
  pwm st' = zero /\ pwmOut st' = zero :: zero :: pwmOut st.
Proof.
  unfold overvoltage, protection. intros ->. split; reflexivity.
Qed.

Lemma mppt_overvoltage (cfg : Config) (sa : State) :
  overvoltage (write_output (protection (controllers cfg sa)))
  = overvoltage (controllers cfg sa).
Proof.
  unfold overvoltage.
  pose proof (write_output_snapshot (protection (controllers cfg sa)))
    as (W1 & _ & _ & _ & W5 & _).
  pose proof (protection_snapshot (controllers cfg sa))
    as (P1 & _ & _ & _ & P5 & _).
  cbv zeta in *. rewrite W1, W5, P1, P5. reflexivity.
Qed.

(** Zeros in the log are duties of 0. *)
Lemma dutyOut_zeros (n : nat) (l : list float) :
  map to_int (repeat zero n ++ l) = repeat (Some 0) n ++ map to_int l.
Proof.
  induction n as [|n IH]; [reflexivity|].
  cbn [repeat app map]. rewrite IH. reflexivity.
Qed.

(** *** C2 *)

(** C2. Whatever state the controller chain leaves, if
    [outputVoltage > targetOutputVoltage + 1.0] the protection and the output
    stage write 0 to the PWM output, twice.  A call of [mppt()] whose
    undervoltage loop ends on a snapshot with that overvoltage returns, with
    the same snapshot, the accumulator at 0 and nothing but zeros written:
    one per pass of the loop, one by the lockout, one by the output stage.
    Conversely every returned call whose snapshot shows the overvoltage has
    written only zeros, the last write included, whichever mode was selected
    and whatever its arithmetic did to the accumulator.  Each zero reaches
    the output as the duty 0. *)
Theorem C2_overvoltage_forces_zero_duty (cfg : Config) :
  (forall x : State,
      (outputVoltage x > targetOutputVoltage x + of_Z 1)%F = true ->
      pwmOut (write_output (protection x)) = zero :: zero :: pwmOut x) /\
  (forall s rs st,
      let sa0 := readSensors cfg s st in
      let sa := wait_passes cfg rs sa0 in
      (forall k, (k < length rs)%nat ->
                 undervoltage (wait_passes cfg (firstn k rs) sa0) = true) ->
      undervoltage sa = false ->
      (outputVoltage sa > targetOutputVoltage sa + of_Z 1)%F = true ->
      exists st',
        mppt cfg s rs st = Some st' /\
        outputVoltage st' = outputVoltage sa /\
        targetOutputVoltage st' = targetOutputVoltage sa /\
        pwm st' = zero /\
        pwmOut st' = repeat zero (S (S (length rs))) ++ pwmOut st /\
        dutyOut st' = repeat (Some 0) (S (S (length rs))) ++ dutyOut st) /\
  (forall s rs st st',
      mppt cfg s rs st = Some st' ->
      (outputVoltage st' > targetOutputVoltage st' + of_Z 1)%F = true ->
      hd_error (pwmOut st') = Some zero /\
      hd_error (dutyOut st') = Some (Some 0) /\
      exists n, pwmOut st' = repeat zero (S (S n)) ++ pwmOut st /\
                dutyOut st' = repeat (Some 0) (S (S n)) ++ dutyOut st) /\
  to_int zero = Some 0.
Proof.
  split; [|split; [|split; [|reflexivity]]].
  - intros x H. apply (protection_lockout x H).
  - intros s rs st sa0 sa Hall Hu Hov.
    pose proof (undervoltage_wait_run cfg rs sa0 Hall) as Hrun.
    fold sa in Hrun. rewrite Hu in Hrun.
    exists (write_output (protection (controllers cfg sa))).
    split; [unfold mppt, arbitration_point; fold sa0; rewrite Hrun; reflexivity|].
    pose proof (write_output_snapshot (protection (controllers cfg sa)))
      as (W1 & _ & _ & _ & W5 & _).
    pose proof (protection_snapshot (controllers cfg sa))
      as (P1 & _ & _ & _ & P5 & _).
    pose proof (controllers_snapshot cfg sa) as (C1 & _ & _ & _ & C5 & C6 & _).
    cbv zeta in *.
    split; [congruence|]. split; [congruence|].
    assert (Hov' : overvoltage (controllers cfg sa) = true)
      by (unfold overvoltage; rewrite C1, C5; exact Hov).
    destruct (protection_lockout _ Hov') as (Hz & Hlog). cbv zeta in Hz, Hlog.
    split; [exact Hz|].
    assert (Hl : pwmOut (write_output (protection (controllers cfg sa)))
                 = repeat zero (S (S (length rs))) ++ pwmOut st).
    { rewrite Hlog, C6.
      destruct (wait_passes_effect cfg rs sa0) as (_ & E2 & _).
      cbv zeta in E2. fold sa in E2. rewrite E2.
      destruct (readSensors_frame cfg s st) as (_ & _ & _ & _ & _ & _ & _ & F8 & _).
      cbv zeta in F8. fold sa0 in F8. rewrite F8. reflexivity. }
    split; [exact Hl|]. unfold dutyOut. rewrite Hl. apply dutyOut_zeros.
  - intros s rs st st' H Hov. apply mppt_inv in H as (sa & Ha & ->).
    change (overvoltage (write_output (protection (controllers cfg sa))) = true)
      in Hov.
    rewrite mppt_overvoltage in Hov.
    destruct (protection_lockout _ Hov) as (_ & Hlog). cbv zeta in Hlog.
    unfold dutyOut. rewrite Hlog. split; [reflexivity|]. split; [reflexivity|].
    unfold arbitration_point in Ha.
    apply undervoltage_wait_effect in Ha as (n & _ & _ & _ & Hout & _).
    destruct (controllers_snapshot cfg sa) as (_ & _ & _ & _ & _ & Hc & _).
    cbv zeta in Hc. rewrite Hc, Hout.
    destruct (readSensors_frame cfg s st) as (_ & _ & _ & _ & _ & _ & _ & Hr & _).
    cbv zeta in Hr. rewrite Hr. exists n.
    split; [reflexivity|]. apply (dutyOut_zeros (S (S n))).
Qed.


(** 18 V on the panel and 9 V on the output against a set point of 4.2 V,
    with the accumulator at 100: the CV arithmetic leaves 95.2, which the
    output stage alone would write as 95; the call returns having written 0. *)
Lemma C2_witness :
  let cfg := default_config MHz16 in
  let st := set_pwm (of_Z 100) init in
  let s := mkSample 372 504 184 in
  to_int (constrain (pwm (controllers cfg (readSensors cfg s st)))
            (of_Z 0) (of_Z 150)) = Some 95 /\
  exists st',
    mppt cfg s [] st = Some st' /\ pwm st' = zero /\
    pwmOut st' = [zero; zero; of_Z 0] /\
    dutyOut st' = [Some 0; Some 0; Some 0].
Proof.
  intros cfg st s. split; [vm_compute; reflexivity|].
  destruct (proj1 (proj2 (C2_overvoltage_forces_zero_duty cfg)) s [] st) 
    as (st' & H & _ & _ & Hz & Hl & Hd).
  - intros k Hk. cbn in Hk. lia.
  - vm_compute. reflexivity.
  - vm_compute. reflexivity.
  - exists st'. repeat split; assumption.
Defined.

(** *** C10 *)

(** The loop hands on an accumulator that is 0 on entry. *)
Lemma undervoltage_wait_pwm_zero (cfg : Config) (rs : list Resample)
    (st sa : State) :
  pwm st = zero -> undervoltage_wait cfg rs st = Some sa -> pwm sa = zero.
Proof.
  intros Hz H. apply undervoltage_wait_effect in H as (n & _ & H0 & H1 & _).
  destruct n; [rewrite H0 by reflexivity; exact Hz|apply H1; discriminate].
Qed.

(** C10. When [outputVoltage > targetOutputVoltage + 1.0] the lockout sets
    the accumulator [pwm] itself to 0, not only the value written: after the
    call, and after the pass of [loop()] around it, [pwm] is 0, and the next
    pass reaches its controller chain with [pwm] at 0, so that the correction
    of whichever mode it selects is applied to 0. *)
Theorem C10_lockout_resets_accumulator (cfg : Config) :
  (forall x : State,
      (outputVoltage x > targetOutputVoltage x + of_Z 1)%F = true ->
      pwm (write_output (protection x)) = zero) /\
  (forall i st st',
      loop cfg i st = Some st' ->
      (outputVoltage st' > targetOutputVoltage st' + of_Z 1)%F = true ->
      pwm st' = zero /\
      forall i' sa,
        arbitration_point cfg (first i') (resamples i')
          (readPot (aPot i') (delay (elapsed i') st')) = Some sa ->
        pwm sa = zero /\
        pwm (controllers cfg sa)
        = mode_pwm cfg (controlMode (controllers cfg sa)) sa).
Proof.
  split.
  - intros x H. apply (protection_lockout x H).
  - intros i st st' H Hov. unfold loop in H. cbv zeta in H.
    destruct (mppt cfg (first i) (resamples i)
                (readPot (aPot i) (delay (elapsed i) st))) as [s1|] eqn:E;
      [|discriminate].
    inversion H; subst st'; clear H.
    apply mppt_inv in E as (sa & Ha & ->).
    destruct (checkVcc_frame (vccmv i)
                (write_output (protection (controllers cfg sa))))
      as (K1 & _ & _ & _ & K5 & _ & _ & K8 & _).
    cbv zeta in *. rewrite K8, K5 in Hov.
    change (overvoltage (write_output (protection (controllers cfg sa))) = true)
      in Hov.
    rewrite mppt_overvoltage in Hov.
    destruct (protection_lockout _ Hov) as (Hz & _). cbv zeta in Hz.
    assert (Hz' : pwm (checkVcc (vccmv i)
                         (write_output (protection (controllers cfg sa)))) = zero)
      by (rewrite K1; exact Hz).
    split; [exact Hz'|].
    intros i' sa' Ha'. split.
    + unfold arbitration_point in Ha'.
      eapply undervoltage_wait_pwm_zero; [|exact Ha'].
      destruct (readSensors_frame cfg (first i')
                  (readPot (aPot i') (delay (elapsed i')
                     (checkVcc (vccmv i)
                        (write_output (protection (controllers cfg sa)))))))
        as (F1 & _).
      cbv zeta in F1. rewrite F1. exact Hz'.
    + rewrite (controllers_run cfg sa') at 1. apply run_mode_pwm.
Qed.

(** The overvoltage pass of the C2 example, at a cold start. *)
Lemma C10_witness :
  let cfg := default_config MHz16 in
  let i := mkCycleIn 5 0 (mkSample 372 504 184) [] 4500 in
  exists st', loop cfg i init = Some st' /\ pwm st' = zero.
Proof.
  intros cfg i.
  exists (checkVcc 4500 (write_output (protection (controllers cfg
            (readSensors cfg (mkSample 372 504 184) (readPot 0 (delay 5 init))))))).
  assert (H : loop cfg i init
              = Some (checkVcc 4500 (write_output (protection (controllers cfg
                  (readSensors cfg (mkSample 372 504 184)
                     (readPot 0 (delay 5 init))))))))
    by (vm_compute; reflexivity).
  split; [exact H|].
  refine (proj1 (proj2 (C10_lockout_resets_accumulator cfg) i init _ H _)).
  vm_compute. reflexivity.
Defined.

(** ** Magnitudes through the arithmetic of the sketch *)

Arguments finite_below : simpl never.

Lemma finite_below_weaken (k k' : Z) (x : float) :
  finite_below k x -> k <= k' -> finite_below k' x.
Proof. intros H Hk. exact (finite_below_mono k k' x Hk H). Qed.

Lemma add_below (kx ky : Z) (x y : float) :
  finite_below kx x -> finite_below ky y ->
  Z.max kx ky <= 105 -> -150 <= Z.max kx ky ->
  finite_below (Z.max kx ky + 2) (x + y)%F.
Proof. apply add_finite_below. Qed.

Lemma sub_below (kx ky : Z) (x y : float) :
  finite_below kx x -> finite_below ky y ->
  Z.max kx ky <= 105 -> -150 <= Z.max kx ky ->
  finite_below (Z.max kx ky + 2) (x - y)%F.
Proof. apply sub_finite_below. Qed.

Lemma mul_below (kx ky : Z) (x y : float) :
  finite_below kx x -> finite_below ky y ->
  kx + ky <= 106 -> -149 <= kx + ky ->
  finite_below (kx + ky + 1) (x * y)%F.
Proof. apply mul_finite_below. Qed.

Lemma constant_below (c : float) :
  nonzero_constant c = true -> finite_below (magnitude c) c.
Proof.
  destruct c as [| | |s m e]; cbn [nonzero_constant magnitude];
    try discriminate.
  intros H. apply Z.eqb_eq in H. unfold finite_below. lia.
Qed.

Lemma div_below (kx : Z) (x c : float) :
  finite_below kx x -> nonzero_constant c = true ->
  kx - magnitude c <= 125 -> -150 <= kx - magnitude c ->
  finite_below (kx - magnitude c + 2) (x / c)%F.
Proof.
  intros Hx Hc H1 H2.
  replace (kx - magnitude c + 2) with (kx + - magnitude c + 2) by lia.
  apply div_finite_below; try lia; [exact Hx|].
  destruct c as [| | |s m e]; try discriminate. cbn [magnitude]. lia.
Qed.

Lemma of_Z_below (z k : Z) :
  0 <= k -> k <= 125 -> Z.abs z < 2 ^ k -> finite_below (k + 1) (of_Z z).
Proof. apply of_Z_finite_below. Qed.

Lemma of_Z_adc_below (a : Z) : valid_adc a -> finite_below 11 (of_Z a).
Proof.
  intros H. apply (of_Z_below a 10); try lia.
  unfold valid_adc in H. change (2 ^ 10) with 1024. lia.
Qed.

Lemma of_Z_adc_offset_below (a : Z) :
  valid_adc a -> finite_below 11 (of_Z (a - acs712Offset)).
Proof.
  intros H. apply (of_Z_below (a - acs712Offset) 10); try lia.
  unfold valid_adc, acs712Offset in *. change (2 ^ 10) with 1024. lia.
Qed.

Lemma of_Z_vccmv_below (mv : Z) : valid_vccmv mv -> finite_below 33 (of_Z mv).
Proof.
  intros H. apply (of_Z_below mv 32); try lia.
  unfold valid_vccmv in H.
  change (2 ^ 31) with 2147483648 in H. change (2 ^ 32) with 4294967296. lia.
Qed.

(** Side conditions on closed magnitudes. *)
Ltac closed_bound := vm_compute; intro; discriminate.

(** Bound an arithmetic expression from the bounds of its leaves. *)
Ltac below :=
  lazymatch goal with
  | |- finite_below _ (add _ _) =>
      eapply add_below; [below|below|closed_bound|closed_bound]
  | |- finite_below _ (sub _ _) =>
      eapply sub_below; [below|below|closed_bound|closed_bound]
  | |- finite_below _ (mul _ _) =>
      eapply mul_below; [below|below|closed_bound|closed_bound]
  | |- finite_below _ (div _ _) =>
      eapply div_below;
      [below|vm_compute; reflexivity|closed_bound|closed_bound]
  | |- finite_below _ _ =>
      first [ eassumption
            | apply of_Z_adc_below; assumption
            | apply of_Z_adc_offset_below; assumption
            | apply of_Z_vccmv_below; assumption
            | apply constant_below; vm_compute; reflexivity ]
  end.

Ltac below_by := eapply finite_below_weaken; [below|closed_bound].

(** Comparisons of bounded numbers. *)
Lemma between_below (k : Z) (x lo hi : float) :
  finite_below k x ->
  nonzero_constant lo = true -> nonzero_constant hi = true ->
  (of_Z 0 < lo)%F = true -> (of_Z 0 < hi)%F = true ->
  (x <= lo)%F = false -> (x >= hi)%F = false ->
  finite_below (magnitude hi) x.
Proof.
  unfold finite_below, lt, le, ge, SFltb, SFleb.
  destruct x as [sx|sx| |sx mx ex]; try tauto.
  destruct lo as [| | |sl ml el]; try discriminate.
  destruct hi as [| | |sh mh eh]; try discriminate.
  cbn [nonzero_constant magnitude]. intros [H1 _] _ Hh Hl0 Hh0 Hlo Hhi.
  apply Z.eqb_eq in Hh.
  destruct sl; [discriminate|]. destruct sh; [discriminate|].
  destruct sx; [discriminate|]. cbn [SFcompare] in Hhi.
  split; [exact H1|].
  destruct (eh ?= ex) eqn:E; try discriminate.
  - apply Z.compare_eq in E. lia.
  - rewrite Z.compare_gt_iff in E. lia.
Qed.

Lemma constrain_core (k : Z) (x : float) :
  finite_below k x ->
  let r := if SFltb x (S754_zero false) then S754_zero false
           else if SFltb pwm_max_f x then pwm_max_f else x in
  finite_below 8 r /\ SFleb (S754_zero false) r = true /\ SFleb r pwm_max_f = true.
Proof.
  intros Hx. unfold pwm_max_f, SFltb, SFleb, finite_below in *.
  destruct x as [sx|sx| |sx mx ex]; try tauto.
  destruct Hx as [H1 _]. destruct sx.
  - cbv beta iota zeta delta [SFcompare]. repeat split.
  - assert (Hc : Pos.compare_cont Eq 9830400 mx
                 = CompOpp (Pos.compare_cont Eq mx 9830400))
      by (rewrite Pos.compare_cont_antisym; reflexivity).
    cbv beta iota zeta delta [SFcompare].
    rewrite (Z.compare_antisym ex (-16)), Hc. clear Hc.
    destruct (ex ?= -16) eqn:E; cbv beta iota zeta delta [CompOpp SFcompare].
    + apply Z.compare_eq in E. subst ex.
      destruct (Pos.compare_cont Eq mx 9830400) eqn:C;
        cbv beta iota zeta delta [SFcompare];
        rewrite ?Z.compare_refl, ?C; repeat split; try exact H1;
        try lia; try reflexivity; vm_compute; discriminate.
    + rewrite E. rewrite Z.compare_lt_iff in E. repeat split; [exact H1|lia].
    + repeat split; try reflexivity; vm_compute; discriminate.
Qed.

(** [constrain(_, 0, 150)] brings a bounded number into the duty range. *)
Lemma constrain_duty_range (k : Z) (x : float) :
  finite_below k x -> duty_range (constrain x (of_Z 0) (of_Z 150)).
Proof. intros Hx. exact (constrain_core k x Hx). Qed.

(** A duty value converts to an integer within [0, PWM_MAX]. *)
Lemma duty_range_to_int (x : float) :
  duty_range x -> exists d, to_int x = Some d /\ 0 <= d <= PWM_MAX.
Proof.
  intros (Hb & H0 & H1).
  destruct (in_range_to_int x 8 Hb H0 H1) as (d & Hd & Hr).
  exists d. unfold to_int. change (trunc x) with
    (match x with
     | S754_zero _ => Some 0
     | S754_finite s m e =>
         Some (cond_Zopp s (match e with
                            | Zneg p => Z.shiftr (Zpos m) (Zpos p)
                            | _ => Zpos m * 2 ^ e
                            end))
     | _ => None
     end).
  rewrite Hd. unfold PWM_MAX.
  destruct (Z.leb_spec (-32768) d), (Z.leb_spec d 32767); cbn; try lia.
  split; [reflexivity|exact Hr].
Qed.

(** ** The invariant of [loop()] *)

Ltac split_all :=
  lazymatch goal with
  | |- _ /\ _ => split; split_all
  | _ => idtac
  end.
Ltac closed_below :=
  lazymatch goal with
  | |- finite_below _ _ => vm_compute; solve [split; discriminate | exact I]
  end.
Lemma duty_range_zero : duty_range (of_Z 0).
Proof. vm_compute. repeat split. Qed.
Lemma init_ok : state_ok init.
Proof.
  unfold state_ok, sensors_bounded, init. state_norm. split_all.
  all: try closed_below.
  - apply Forall_cons; [apply duty_range_zero|apply Forall_nil].
  - apply duty_range_zero.
Qed.

Lemma readPot_ok (a : Z) (st : State) :
  valid_adc a -> state_ok st -> state_ok (readPot a st).
Proof.
  intros Ha ((V & I & O & C & R0 & R1 & R2 & R3 & T & U & L) & P).
  unfold state_ok, sensors_bounded. state_norm.
  split_all; try assumption. below_by.
Qed.

Lemma checkVcc_ok (mv : Z) (st : State) :
  valid_vccmv mv -> state_ok st -> state_ok (checkVcc mv st).
Proof.
  intros Hv H. unfold checkVcc.
  destruct (1000 <=? usub (millis st) (lastVcc st)); [|exact H].
  destruct H as ((V & I & O & C & R0 & R1 & R2 & R3 & T & U & L) & P).
  unfold state_ok, sensors_bounded. state_norm.
  split_all; try assumption. below_by.
Qed.

Lemma readSensors_ok (b : Board) (s : Sample) (st : State) :
  valid_sample s -> state_ok st -> state_ok (readSensors (default_config b) s st).
Proof.
  intros (S1 & S2 & S3) ((V & I & O & C & R0 & R1 & R2 & R3 & T & U & L) & P).
  unfold state_ok, sensors_bounded. destruct b; state_norm;
    cbv [default_config board acs712VoltsPerAmp efficiency].
  all: split_all; try assumption.
  all: below_by.
Qed.

Lemma wait_body_ok (b : Board) (r : Resample) (st : State) :
  valid_resample r -> state_ok st -> state_ok (wait_body (default_config b) r st).
Proof.
  intros (Hv & Hs) ((V & I & O & C & R0 & R1 & R2 & R3 & T & U & L) & P).
  unfold wait_body. cbv zeta.
  apply readSensors_ok; [exact Hs|]. apply checkVcc_ok; [exact Hv|].
  unfold state_ok, sensors_bounded. state_norm.
  split_all; try assumption; try apply duty_range_zero.
  apply Forall_cons; [apply duty_range_zero|exact L].
Qed.

Lemma undervoltage_wait_ok (b : Board) (rs : list Resample) :
  Forall valid_resample rs ->
  forall st sa,
    state_ok st -> undervoltage_wait (default_config b) rs st = Some sa ->
    state_ok sa.
Proof.
  induction 1 as [|r rs Hr Hrs IH]; intros st sa Hst H;
    cbn [undervoltage_wait] in H; destruct (undervoltage st);
    try discriminate; try (inversion H; subst; exact Hst).
  eapply IH; [|exact H]. apply wait_body_ok; assumption.
Qed.

(** What the direction sub-loop writes: the power delta, the target, the
    direction and the stored power; nothing else. *)
Lemma direction_subloop_frame (cfg : Config) (st : State) :
  let st' := direction_subloop cfg st in
  vcc st' = vcc st /\ inputVoltage st' = inputVoltage st /\
  outputVoltage st' = outputVoltage st /\ outputCurrent st' = outputCurrent st /\
  raw0 st' = raw0 st /\ raw1 st' = raw1 st /\ raw2 st' = raw2 st /\
  raw3 st' = raw3 st /\ targetOutputVoltage st' = targetOutputVoltage st /\
  pwmOut st' = pwmOut st /\ pwm st' = pwm st /\
  controlMode st' = controlMode st /\ lastMppt st' = lastMppt st /\
  lastCalc st' = lastCalc st /\ lastVcc st' = lastVcc st /\ clock st' = clock st /\
  outputPower st' = outputPower st /\ inputCurrent st' = inputCurrent st.
Proof.
  unfold direction_subloop.
  destruct st as [? ? ? ? ? ? ? ? ? ? ? ? ? td ? ? ? ? ? ? ? ?].
  cbv zeta. state_norm. destruct td; state_norm;
    match goal with |- context [(?v <= minPanelVoltage cfg)%F] =>
      destruct (v <= minPanelVoltage cfg)%F; state_norm;
      [|destruct (v >= maxPanelVoltage cfg)%F; state_norm;
        [|match goal with |- context [if ?c then _ else _] =>
            destruct c; state_norm end]]
    end; split_all; reflexivity.
Qed.

Lemma not_le_gt (k : Z) (x c : float) :
  finite_below k x -> nonzero_constant c = true ->
  (x <= c)%F = false -> (x > c)%F = true.
Proof.
  unfold gt, le, lt, SFltb, SFleb. intros Hx Hc.
  rewrite (SFcompare_antisym x c).
  destruct c as [| | |sc mc ec]; try discriminate.
  destruct x as [sx|sx| |sx mx ex]; unfold finite_below in Hx; try tauto.
  - destruct sc; cbn; intros; first [reflexivity|discriminate].
  - destruct (SFcompare (S754_finite sx mx ex) (S754_finite sc mc ec))
      as [[]|] eqn:E; cbn; intros; try reflexivity; try discriminate;
      destruct sx, sc; discriminate.
Qed.

Lemma not_ge_lt (k : Z) (x c : float) :
  finite_below k x -> nonzero_constant c = true ->
  (x >= c)%F = false -> (x < c)%F = true.
Proof.
  unfold ge, le, lt, SFltb, SFleb. intros Hx Hc.
  rewrite (SFcompare_antisym x c).
  destruct c as [| | |sc mc ec]; try discriminate.
  destruct x as [sx|sx| |sx mx ex]; unfold finite_below in Hx; try tauto.
  - destruct sc; cbn; intros; first [reflexivity|discriminate].
  - destruct (SFcompare (S754_finite sx mx ex) (S754_finite sc mc ec))
      as [[]|] eqn:E; cbn; intros; try reflexivity; try discriminate;
      destruct sx, sc; discriminate.
Qed.

Lemma direction_subloop_ok (b : Board) (st : State) :
  sensors_bounded st ->
  sensors_bounded (direction_subloop (default_config b) st) /\
  target_in_range (default_config b) (direction_subloop (default_config b) st).
Proof.
  intros (V & I & O & C & R0 & R1 & R2 & R3 & T & U & L).
  pose proof (direction_subloop_frame (default_config b) st)
    as (F1 & F2 & F3 & F4 & F5 & F6 & F7 & F8 & F9 & F10 & _).
  cbv zeta in *. unfold sensors_bounded, target_in_range.
  rewrite F1, F2, F3, F4, F5, F6, F7, F8, F9, F10.
  rewrite direction_subloop_target.
  assert (Hv : finite_below 10 (stepped_target (default_config b) st)).
  { unfold stepped_target. cbv [default_config trackingIncrement].
    destruct (trackingDownwards st); below_by. }
  unfold outside_limits.
  destruct (stepped_target (default_config b) st <= minPanelVoltage (default_config b))%F
    eqn:E1; cbn [orb].
  { split; [split_all; try assumption|]; vm_compute; repeat split; discriminate. }
  destruct (stepped_target (default_config b) st >= maxPanelVoltage (default_config b))%F
    eqn:E2.
  { split; [split_all; try assumption|]; vm_compute; repeat split; discriminate. }
  split; [split_all; try assumption|].
  - eapply finite_below_weaken;
      [eapply (between_below 10 _ (minPanelVoltage (default_config b))
                 (maxPanelVoltage (default_config b))); try eassumption;
       vm_compute; reflexivity|closed_bound].
  - split.
    + eapply not_le_gt; [exact Hv|vm_compute; reflexivity|exact E1].
    + eapply not_ge_lt; [exact Hv|vm_compute; reflexivity|exact E2].
Qed.

Lemma duty_range_below (x : float) : duty_range x -> finite_below 8 x.
Proof. intros (H & _). exact H. Qed.

Lemma mppt_branch_ok (b : Board) (st : State) :
  state_ok st -> target_in_range (default_config b) st ->
  pre_ok (mppt_branch (default_config b) st) /\
  target_in_range (default_config b) (mppt_branch (default_config b) st).
Proof.
  intros (Hs & Hp) Ht. apply duty_range_below in Hp.
  unfold mppt_branch. cbv zeta.
  set (s0 := set_controlMode MPPT st).
  assert (Hs0 : sensors_bounded s0) by exact Hs.
  assert (Ht0 : target_in_range (default_config b) s0) by exact Ht.
  assert (Hp0 : finite_below 8 (pwm s0)) by exact Hp.
  set (s1 := if 1000 <=? usub (millis s0) (lastMppt s0)
             then direction_subloop (default_config b) (set_lastMppt (millis s0) s0)
             else s0).
  assert (H1 : sensors_bounded s1 /\ target_in_range (default_config b) s1
               /\ finite_below 8 (pwm s1)).
  { subst s1. destruct (1000 <=? usub (millis s0) (lastMppt s0)).
    - destruct (direction_subloop_ok b (set_lastMppt (millis s0) s0) Hs0) as [A B].
      split; [exact A|]. split; [exact B|].
      destruct (direction_subloop_frame (default_config b)
                  (set_lastMppt (millis s0) s0))
        as (_ & _ & _ & _ & _ & _ & _ & _ & _ & _ & F & _).
      cbv zeta in F. rewrite F. exact Hp0.
    - tauto. }
  clearbody s1. destruct H1 as (A & B & C).
  destruct (50 <=? usub (millis s1) (lastCalc s1)); [|split; [split|]; try assumption].
  - unfold convergence_subloop.
    destruct A as (V & I & O & Cu & R0 & R1 & R2 & R3 & T & U & L).
    split; [|exact B]. unfold pre_ok, sensors_bounded. state_norm.
    split_all; try assumption. below_by.
  - eapply finite_below_weaken; [exact C|lia].
Qed.

Lemma controllers_ok (b : Board) (st : State) :
  state_ok st -> target_in_range (default_config b) st ->
  pre_ok (controllers (default_config b) st) /\
  target_in_range (default_config b) (controllers (default_config b) st).
Proof.
  intros Hst Ht. unfold controllers.
  repeat match goal with
         | |- context [if ?c && ?d then _ else _] => destruct (c && d)
         end; try (apply mppt_branch_ok; assumption).
  all: destruct Hst as ((V & I & O & Cu & R0 & R1 & R2 & R3 & T & U & L) & P);
    apply duty_range_below in P.
  - unfold cv_branch. cbv zeta.
    match goal with |- context [if ?c then _ else _] => destruct c end;
      (split; [|exact Ht]); unfold pre_ok, sensors_bounded; state_norm;
      cbv [default_config minPanelVoltage];
      split_all; try assumption; below_by.
  - unfold cc_branch. (split; [|exact Ht]); unfold pre_ok, sensors_bounded; state_norm;
      cbv [default_config maxOutputCurrent];
      split_all; try assumption; below_by.
  - unfold bp_branch. (split; [|exact Ht]); unfold pre_ok, sensors_bounded; state_norm;
      split_all; try assumption; below_by.
Qed.

Lemma protection_ok (st : State) : pre_ok st -> pre_ok (protection st).
Proof.
  intros H. unfold protection.
  destruct (outputVoltage st > targetOutputVoltage st + of_Z 1)%F; [|exact H].
  destruct H as ((V & I & O & Cu & R0 & R1 & R2 & R3 & T & U & L) & P).
  unfold pre_ok, sensors_bounded. state_norm. split_all; try assumption.
  - apply Forall_cons; [apply duty_range_zero|exact L].
  - vm_compute. constructor.
Qed.

Lemma write_output_ok (st : State) : pre_ok st -> state_ok (write_output st).
Proof.
  intros ((V & I & O & Cu & R0 & R1 & R2 & R3 & T & U & L) & P).
  pose proof (constrain_duty_range 60 (pwm st) P) as Hc.
  unfold write_output, state_ok, sensors_bounded. state_norm.
  split_all; try assumption.
  apply Forall_cons; assumption.
Qed.

Lemma protection_target (cfg : Config) (st : State) :
  targetPanelVoltage (write_output (protection st)) = targetPanelVoltage st.
Proof.
  unfold protection.
  destruct (outputVoltage st > targetOutputVoltage st + of_Z 1)%F; reflexivity.
Qed.

(** ** The invariant over the reachable states *)

Lemma mppt_ok (b : Board) (s : Sample) (rs : list Resample) (st st' : State) :
  valid_sample s -> Forall valid_resample rs ->
  loop_inv (default_config b) st ->
  mppt (default_config b) s rs st = Some st' ->
  loop_inv (default_config b) st'.
Proof.
  intros Hs Hrs (Hst & Ht) H. apply mppt_inv in H as (sa & Ha & ->).
  unfold arbitration_point in Ha.
  assert (Hsa : state_ok sa).
  { eapply undervoltage_wait_ok; [exact Hrs| |exact Ha].
    apply readSensors_ok; assumption. }
  assert (Hta : target_in_range (default_config b) sa).
  { apply undervoltage_wait_effect in Ha as (n & _ & _ & _ & _ & _ & _ & E & _).
    destruct (readSensors_frame (default_config b) s st) as (_ & _ & F & _).
    cbv zeta in F. unfold target_in_range. rewrite E, F. exact Ht. }
  destruct (controllers_ok b sa Hsa Hta) as (Hc & Htc).
  split.
  - apply write_output_ok, protection_ok, Hc.
  - unfold target_in_range.
    rewrite (protection_target (default_config b)). exact Htc.
Qed.

Lemma loop_ok (b : Board) (i : CycleIn) (st st' : State) :
  valid_input i -> loop_inv (default_config b) st ->
  loop (default_config b) i st = Some st' ->
  loop_inv (default_config b) st'.
Proof.
  intros (Hp & Hs & Hrs & Hv) (Hst & Ht) H. unfold loop in H. cbv zeta in H.
  destruct (mppt (default_config b) (first i) (resamples i)
              (readPot (aPot i) (delay (elapsed i) st))) as [s1|] eqn:E;
    [|discriminate].
  inversion H; subst st'; clear H.
  assert (H1 : loop_inv (default_config b) s1).
  { eapply mppt_ok; [exact Hs|exact Hrs| |exact E].
    split; [apply readPot_ok; [exact Hp|exact Hst]|exact Ht]. }
  destruct H1 as (A & B). split.
  - apply checkVcc_ok; assumption.
  - destruct (checkVcc_frame (vccmv i) s1) as (_ & _ & F & _).
    cbv zeta in F. unfold target_in_range. rewrite F. exact B.
Qed.

Lemma reachable_inv (b : Board) (st : State) :
  reachable (default_config b) st -> loop_inv (default_config b) st.
Proof.
  induction 1 as [|st i st' _ IH Hi Hl].
  - split; [apply init_ok|]. vm_compute. split; reflexivity.
  - eapply loop_ok; eassumption.
Qed.

(** After [setup()] and after every pass of [loop()] the last value written
    is the accumulator. *)
Lemma reachable_last_write (cfg : Config) (st : State) :
  reachable cfg st -> hd_error (pwmOut st) = Some (pwm st).
Proof.
  destruct 1 as [|st i st' _ _ Hl]; [reflexivity|].
  unfold loop in Hl. cbv zeta in Hl.
  destruct (mppt cfg (first i) (resamples i)
              (readPot (aPot i) (delay (elapsed i) st))) as [s1|] eqn:E;
    [|discriminate].
  inversion Hl; subst st'; clear Hl.
  apply mppt_inv in E as (sa & _ & ->).
  destruct (checkVcc_frame (vccmv i)
              (write_output (protection (controllers cfg sa))))
    as (K1 & _ & _ & _ & _ & _ & K7 & _).
  cbv zeta in K1, K7. rewrite K1, K7. reflexivity.
Qed.

Lemma finite_below_is_finite (k : Z) (x : float) :
  finite_below k x -> is_finite x = true.
Proof. destruct x; unfold finite_below; cbn; tauto. Qed.

(** ** The set point *)

Lemma adc_counts_complete (a : Z) : valid_adc a -> In a adc_counts.
Proof.
  intros H. unfold adc_counts. apply in_map_iff. exists (Z.to_nat a).
  split; [apply Z2Nat.id; unfold valid_adc in H; lia|].
  apply in_seq. unfold valid_adc in H. lia.
Qed.

Lemma setpoint_range_all : forallb setpoint_in_range adc_counts = true.
Proof. vm_compute. reflexivity. Qed.

(** X5. For every potentiometer reading from 0 to 1023, [readPot()] sets
    the target output voltage within 4.2 V to 5.2 V, as its comment says. *)
Theorem readPot_setpoint_range (a : Z) (st : State) :
  valid_adc a ->
  (lit 42 10 <= targetOutputVoltage (readPot a st))%F = true /\
  (targetOutputVoltage (readPot a st) <= lit 52 10)%F = true.
Proof.
  intros H. apply adc_counts_complete in H.
  pose proof (proj1 (forallb_forall _ _) setpoint_range_all a H) as E.
  unfold setpoint_in_range in E. apply andb_prop in E. exact E.
Qed.

(** ** Timers *)

(** Unsigned subtraction gives the time gone by, across the overflow of
    [millis()]. *)
Lemma usub_elapsed (t d : Z) :
  0 <= d < 2 ^ 32 -> usub ((t + d) mod 2 ^ 32) (t mod 2 ^ 32) = d.
Proof.
  intros H. unfold usub. rewrite <- Zminus_mod.
  replace (t + d - t) with d by lia. apply Z.mod_small. exact H.
Qed.

(** X6. [checkVcc()] compares timestamps by unsigned subtraction, so it
    measures the time gone by since the last reading correctly across the
    overflow of [millis()]: with [d] ms gone by, [d < 2^32], it leaves the
    state alone when [d < 1000] and otherwise reads the supply voltage anew
    and restarts its timer. *)
Theorem checkVcc_every_second (mv : Z) (st : State) (t d : Z) :
  lastVcc st = t mod 2 ^ 32 -> clock st = t + d -> 0 <= d < 2 ^ 32 ->
  (d < 1000 -> checkVcc mv st = st) /\
  (1000 <= d ->
   vcc (checkVcc mv st) = (of_Z mv / of_Z 1000)%F /\
   lastVcc (checkVcc mv st) = (t + d) mod 2 ^ 32).
Proof.
  intros Hl Hc Hd. unfold checkVcc, millis. rewrite Hl, Hc, usub_elapsed by exact Hd.
  split; intros H.
  - apply Z.leb_gt in H. rewrite H. reflexivity.
  - apply Z.leb_le in H. rewrite H. split; reflexivity.
Qed.

Lemma checkVcc_every_second_witness :
  vcc (checkVcc 3300 (delay 1000 init)) = (of_Z 3300 / of_Z 1000)%F.
Proof.
  refine (proj1 (proj2 (checkVcc_every_second 3300 (delay 1000 init) 0 1000 _ _ _) _));
    first [reflexivity | lia].
Defined.

(** X7. In MPPT mode the direction sub-loop runs at most once per second:
    with [d] ms gone by since it last ran, [d < 2^32], the target, the
    direction, the stored power and the timer are left alone when
    [d < 1000], and otherwise they are those the direction sub-loop gives,
    with the timer restarted; this holds across the overflow of [millis()]. *)
Theorem tracker_timers (cfg : Config) (st : State) (t d : Z) :
  lastMppt st = t mod 2 ^ 32 -> clock st = t + d -> 0 <= d < 2 ^ 32 ->
  (d < 1000 ->
   targetPanelVoltage (mppt_branch cfg st) = targetPanelVoltage st /\
   trackingDownwards (mppt_branch cfg st) = trackingDownwards st /\
   outputPowerPrevious (mppt_branch cfg st) = outputPowerPrevious st /\
   lastMppt (mppt_branch cfg st) = lastMppt st) /\
  (1000 <= d ->
   targetPanelVoltage (mppt_branch cfg st) = targetPanelVoltage (direction_subloop cfg st) /\
   trackingDownwards (mppt_branch cfg st) = trackingDownwards (direction_subloop cfg st) /\
   outputPowerPrevious (mppt_branch cfg st) = outputPower st /\
   lastMppt (mppt_branch cfg st) = (t + d) mod 2 ^ 32).
Proof.
  intros Hl Hc Hd. unfold mppt_branch, convergence_subloop. cbv zeta.
  assert (Hm : millis st = (t + d) mod 2 ^ 32)
    by (unfold millis; rewrite Hc; reflexivity).
  assert (Hu : usub (millis (set_controlMode MPPT st))
                 (lastMppt (set_controlMode MPPT st)) = d).
  { change (usub (millis st) (lastMppt st) = d).
    rewrite Hm, Hl. apply usub_elapsed, Hd. }
  rewrite Hu. split; intros H.
  - apply Z.leb_gt in H. rewrite H.
    match goal with |- context [if ?c then _ else _] => destruct c end;
      state_norm; split_all; reflexivity.
  - apply Z.leb_le in H. rewrite H.
    set (s0 := set_lastMppt (millis (set_controlMode MPPT st)) (set_controlMode MPPT st)).
    assert (E1 : targetPanelVoltage (direction_subloop cfg s0)
                 = targetPanelVoltage (direction_subloop cfg st))
      by (rewrite !direction_subloop_target; reflexivity).
    assert (E2 : trackingDownwards (direction_subloop cfg s0)
                 = trackingDownwards (direction_subloop cfg st))
      by (rewrite !direction_subloop_direction; reflexivity).
    pose proof (proj2 (direction_subloop_power cfg s0)) as E3.
    destruct (direction_subloop_frame cfg s0)
      as (_ & _ & _ & _ & _ & _ & _ & _ & _ & _ & _ & _ & E4 & _).
    cbv zeta in E4.
    assert (E5 : lastMppt s0 = (t + d) mod 2 ^ 32) by exact Hm.
    match goal with |- context [if ?c then _ else _] => destruct c end;
      cbn [targetPanelVoltage trackingDownwards outputPowerPrevious lastMppt
           set_pwm set_lastCalc];
      rewrite E1, E2, E3, E4, E5; split_all; reflexivity.
Qed.

Lemma tracker_timers_witness :
  let cfg := default_config MHz16 in
  let st := delay 999 init in
  targetPanelVoltage (mppt_branch cfg st) = targetPanelVoltage st.
Proof.
  intros cfg st.
  refine (proj1 (proj1 (tracker_timers cfg st 0 999 _ _ _) _));
    first [reflexivity | lia].
Defined.

(** X8. In MPPT mode the accumulator is corrected at most once per 50 ms:
    with [d] ms gone by since the last correction, [d < 2^32], [pwm] is left
    alone when [d < 50] and otherwise lowered by the distance of the panel
    voltage from the target in force after this call, with the timer
    restarted. *)
Theorem convergence_every_50ms (cfg : Config) (st : State) (t d : Z) :
  lastCalc st = t mod 2 ^ 32 -> clock st = t + d -> 0 <= d < 2 ^ 32 ->
  (d < 50 -> pwm (mppt_branch cfg st) = pwm st) /\
  (50 <= d ->
   pwm (mppt_branch cfg st)
   = (pwm st - (targetPanelVoltage (mppt_branch cfg st) - inputVoltage st))%F /\
   lastCalc (mppt_branch cfg st) = (t + d) mod 2 ^ 32).
Proof.
  intros Hl Hc Hd.
  assert (Hm : millis st = (t + d) mod 2 ^ 32)
    by (unfold millis; rewrite Hc; reflexivity).
  assert (Hu : usub (millis st) (lastCalc st) = d)
    by (rewrite Hm, Hl; apply usub_elapsed, Hd).
  unfold mppt_branch, convergence_subloop. cbv zeta.
  set (s0 := set_controlMode MPPT st).
  set (s1 := if 1000 <=? usub (millis s0) (lastMppt s0)
             then direction_subloop cfg (set_lastMppt (millis s0) s0) else s0).
  assert (F : millis s1 = millis st /\ lastCalc s1 = lastCalc st /\
              pwm s1 = pwm st /\ inputVoltage s1 = inputVoltage st).
  { subst s1. destruct (1000 <=? usub (millis s0) (lastMppt s0)).
    - destruct (direction_subloop_frame cfg (set_lastMppt (millis s0) s0))
        as (_ & F2 & _ & _ & _ & _ & _ & _ & _ & _ & F11 & _ & _ & F14 & _ & F16 & _).
      cbv zeta in *. set (x := set_lastMppt (millis s0) s0) in *.
      unfold millis. rewrite F16, F14, F11, F2. repeat split.
    - repeat split. }
  clearbody s1. destruct F as (F1 & F2 & F3 & F4).
  rewrite F1, F2, Hu. split; intros H.
  - apply Z.leb_gt in H. rewrite H. exact F3.
  - apply Z.leb_le in H. rewrite H.
    cbn [pwm set_pwm set_lastCalc targetPanelVoltage inputVoltage lastCalc].
    rewrite F3, F4, Hm. split; reflexivity.
Qed.

Lemma convergence_every_50ms_witness :
  let cfg := default_config MHz16 in
  let st := delay 49 init in
  pwm (mppt_branch cfg st) = pwm st.
Proof.
  intros cfg st.
  refine (proj1 (convergence_every_50ms cfg st 0 49 _ _ _) _);
    first [reflexivity | lia].
Defined.

(** ** The mode conditions *)

(** X9. The conditions of the CV, CC and BP branches exclude one another,
    so the order of the chain decides nothing: each of these modes is
    selected exactly when its own condition holds, and MPPT exactly when
    none does. *)
Theorem mode_selected_iff_condition (cfg : Config) (st : State) :
  (controlMode (controllers cfg st) = CV <-> cv_pred cfg st = true) /\
  (controlMode (controllers cfg st) = CC <-> cc_pred cfg st = true) /\
  (controlMode (controllers cfg st) = BP <-> bp_pred cfg st = true) /\
  (controlMode (controllers cfg st) = MPPT <->
   cv_pred cfg st = false /\ cc_pred cfg st = false /\ bp_pred cfg st = false).
Proof.
  rewrite controllers_mode.
  destruct (mode_predicates_disjoint cfg st) as [D1 D2].
  destruct (cv_pred cfg st) eqn:E1.
  - destruct (D1 eq_refl) as [-> ->].
    unfold CV, CC, BP, MPPT; intuition congruence.
  - destruct (cc_pred cfg st) eqn:E2.
    + rewrite (D2 eq_refl).
      unfold CV, CC, BP, MPPT; intuition congruence.
    + destruct (bp_pred cfg st);
        unfold CV, CC, BP, MPPT; intuition congruence.
Qed.

Lemma eqb_not_lt (x y : float) :
  SFeqb x y = true -> (x < y)%F = false /\ (x > y)%F = false.
Proof.
  unfold SFeqb, lt, gt, SFltb. rewrite (SFcompare_antisym x y).
  destruct (SFcompare x y) as [[]|]; cbn; intros; try discriminate.
  split; reflexivity.
Qed.

(** X10. An output current above the limit with the output voltage equal to
    the target meets neither the CC condition (voltage below target) nor the
    BP condition (voltage above target): the chain selects MPPT, and the
    accumulator gets the MPPT arithmetic, with no current limiting. *)
Theorem overcurrent_at_target_voltage_is_mppt (cfg : Config) (st : State) :
  (outputCurrent st > maxOutputCurrent cfg)%F = true ->
  SFeqb (outputVoltage st) (targetOutputVoltage st) = true ->
  controlMode (controllers cfg st) = MPPT /\
  pwm (controllers cfg st) = mode_pwm cfg MPPT st.
Proof.
  intros Hc He. apply eqb_not_lt in He as [H1 H2].
  assert (E1 : cv_pred cfg st = false).
  { unfold cv_pred. apply andb_false_iff. right.
    destruct (outputCurrent st <= maxOutputCurrent cfg)%F eqn:E; [|reflexivity].
    apply le_not_gt in E. congruence. }
  assert (E2 : cc_pred cfg st = false)
    by (unfold cc_pred; rewrite H1; apply andb_false_r).
  assert (E3 : bp_pred cfg st = false)
    by (unfold bp_pred; rewrite H2; apply andb_false_r).
  assert (Hm : controlMode (controllers cfg st) = MPPT)
    by (rewrite controllers_mode, E1, E2, E3; reflexivity).
  split; [exact Hm|].
  rewrite (controllers_run cfg st) at 1. rewrite Hm. apply run_mode_pwm.
Qed.

Lemma overcurrent_at_target_voltage_witness :
  let cfg := default_config MHz16 in
  let st := set_outputCurrent (lit 35 10) (set_outputVoltage (lit 42 10) init) in
  controlMode (controllers cfg st) = MPPT.
Proof.
  intros cfg st.
  refine (proj1 (overcurrent_at_target_voltage_is_mppt cfg st _ _));
    vm_compute; reflexivity.
Defined.

(** X11. When the chain selects CV, CC or BP, the tracker is untouched: the
    target, the direction, the stored power, the power delta and both
    timers keep their values. *)
Theorem tracker_frozen_outside_mppt (cfg : Config) (st : State) :
  controlMode (controllers cfg st) <> MPPT ->
  targetPanelVoltage (controllers cfg st) = targetPanelVoltage st /\
  trackingDownwards (controllers cfg st) = trackingDownwards st /\
  outputPowerPrevious (controllers cfg st) = outputPowerPrevious st /\
  outputPowerDelta (controllers cfg st) = outputPowerDelta st /\
  lastMppt (controllers cfg st) = lastMppt st /\
  lastCalc (controllers cfg st) = lastCalc st.
Proof.
  intros H. rewrite controllers_mode in H. unfold controllers.
  fold (cv_pred cfg st) (cc_pred cfg st) (bp_pred cfg st).
  destruct (cv_pred cfg st); [|destruct (cc_pred cfg st); [|destruct (bp_pred cfg st)]].
  - unfold cv_branch. cbv zeta.
    match goal with |- context [if ?c then _ else _] => destruct c end;
      state_norm; split_all; reflexivity.
  - unfold cc_branch. state_norm. split_all; reflexivity.
  - unfold bp_branch. state_norm. split_all; reflexivity.
  - congruence.
Qed.

Lemma tracker_frozen_outside_mppt_witness :
  let cfg := default_config MHz16 in
  let st := set_outputVoltage (lit 43 10) init in
  targetPanelVoltage (controllers cfg st) = targetPanelVoltage st.
Proof.
  intros cfg st.
  refine (proj1 (tracker_frozen_outside_mppt cfg st _)).
  vm_compute. discriminate.
Defined.

(** ** The current filter *)

(** One acquisition shifts the window by one sample. *)
Lemma current_filter_window (cfg : Config) (s : Sample) (st : State) :
  let st' := readSensors cfg s st in
  raw0 st' = current_sample (board cfg) (aIsenseOut s) (vcc st) /\
  raw1 st' = raw0 st /\ raw2 st' = raw1 st /\ raw3 st' = raw2 st /\
  outputCurrent st' = ((raw0 st' + raw0 st + raw1 st + raw2 st) / of_Z 4)%F.
Proof. state_norm. unfold current_sample. split_all; reflexivity. Qed.

(** X12. The current filter remembers four samples: after four sensor
    acquisitions the filtered output current is the mean of the last four
    converted samples and does not depend on what the window held before. *)
Theorem current_filter_memory (cfg : Config) (s1 s2 s3 s4 : Sample)
    (st st' : State) :
  vcc st = vcc st' ->
  let run x := readSensors cfg s4 (readSensors cfg s3
                 (readSensors cfg s2 (readSensors cfg s1 x))) in
  outputCurrent (run st) = outputCurrent (run st') /\
  outputCurrent (run st)
  = ((current_sample (board cfg) (aIsenseOut s4) (vcc st)
      + current_sample (board cfg) (aIsenseOut s3) (vcc st)
      + current_sample (board cfg) (aIsenseOut s2) (vcc st)
      + current_sample (board cfg) (aIsenseOut s1) (vcc st)) / of_Z 4)%F.
Proof.
  intros H run. subst run. cbv beta.
  assert (E : forall x,
    outputCurrent (readSensors cfg s4 (readSensors cfg s3
                     (readSensors cfg s2 (readSensors cfg s1 x))))
    = ((current_sample (board cfg) (aIsenseOut s4) (vcc x)
      + current_sample (board cfg) (aIsenseOut s3) (vcc x)
      + current_sample (board cfg) (aIsenseOut s2) (vcc x)
      + current_sample (board cfg) (aIsenseOut s1) (vcc x)) / of_Z 4)%F).
  { intros x. destruct x. state_norm. reflexivity. }
  rewrite !E, H. split; reflexivity.
Qed.

Lemma current_filter_memory_witness :
  let cfg := default_config MHz16 in
  let s := mkSample 372 600 276 in
  let run x := readSensors cfg s (readSensors cfg s (readSensors cfg s
                 (readSensors cfg s x))) in
  outputCurrent (run init) = outputCurrent (run (set_raw (of_Z 1) (of_Z 2) (of_Z 3) (of_Z 4) init)).
Proof.
  intros cfg s.
  refine (proj1 (current_filter_memory cfg s s s s init
                   (set_raw (of_Z 1) (of_Z 2) (of_Z 3) (of_Z 4) init) _)).
  reflexivity.
Defined.

(** ** The undervoltage wait re-reads the supply voltage *)

(** X13. A pass of the undervoltage loop starts with a two-second delay, so
    a supply voltage reading taken [d] ms before the pass,
    [d < 2^32 - 2000], is more than a second old when [checkVcc()] runs: the
    pass reads the supply voltage anew, converts the panel voltage with the
    new value and restarts the timer, so that the next pass does the same. *)
Theorem wait_pass_rereads_vcc (cfg : Config) (r : Resample) (st : State) (t d : Z) :
  lastVcc st = t mod 2 ^ 32 -> clock st = t + d -> 0 <= d < 2 ^ 32 - 2000 ->
  let st' := wait_body cfg r st in
  vcc st' = (of_Z (r_vccmv r) / of_Z 1000)%F /\
  lastVcc st' = (clock st') mod 2 ^ 32 /\
  inputVoltage st'
  = (of_Z (aVsenseIn (r_sample r)) * (of_Z (r_vccmv r) / of_Z 1000) / of_Z 93)%F.
Proof.
  intros Hl Hc Hd st'.
  pose proof (wait_body_effect cfg r st) as (_ & _ & B3 & _ & _ & _ & _ & B8 & B9 & _).
  cbv zeta in *. fold st' in B3, B8, B9.
  assert (Hu : usub ((clock st + 2000) mod 2 ^ 32) (lastVcc st) = d + 2000).
  { rewrite Hl, Hc. replace (t + d + 2000) with (t + (d + 2000)) by lia.
    apply usub_elapsed. lia. }
  rewrite Hu in B8.
  assert (Hf : (1000 <=? d + 2000) = true) by (apply Z.leb_le; lia).
  rewrite Hf in B8. rewrite B9, B8. split; [reflexivity|]. split; [|reflexivity].
  subst st'. unfold wait_body. cbv zeta.
  set (s1 := delay 2000 (analogWrite (pwm (set_pwm (of_Z 0) st)) (set_pwm (of_Z 0) st))).
  destruct (readSensors_frame cfg (r_sample r) (checkVcc (r_vccmv r) s1))
    as (_ & _ & _ & _ & _ & _ & F7 & _ & F9 & _).
  cbv zeta in F7, F9. rewrite F7, F9.
  destruct (checkVcc_every_second (r_vccmv r) s1 t (d + 2000)) as (_ & K);
    [exact Hl|subst s1; cbn [clock delay set_clock analogWrite set_pwmOut set_pwm];
              rewrite Hc; lia|lia|].
  destruct (K ltac:(lia)) as (_ & K2). rewrite K2.
  destruct (checkVcc_frame (r_vccmv r) s1) as (_ & _ & _ & _ & _ & K6 & _).
  cbv zeta in K6. rewrite K6.
  subst s1. cbn [clock delay set_clock analogWrite set_pwmOut set_pwm].
  rewrite Hc. f_equal. lia.
Qed.

Lemma wait_pass_rereads_vcc_witness :
  vcc (wait_body (default_config MHz16) (mkResample 3300 (mkSample 372 504 276)) init)
  = (of_Z 3300 / of_Z 1000)%F.
Proof.
  refine (proj1 (wait_pass_rereads_vcc (default_config MHz16)
                   (mkResample 3300 (mkSample 372 504 276)) init 0 0 _ _ _));
    first [reflexivity | lia].
Defined.

(** ** The status LED *)

Lemma mppt_mode_code (cfg : Config) (s : Sample) (rs : list Resample)
    (st st' : State) :
  mppt cfg s rs st = Some st' -> In (controlMode st') [CV; CC; BP; MPPT].
Proof.
  intros H. apply mppt_inv in H as (sa & _ & ->).
  destruct (write_output_snapshot (protection (controllers cfg sa)))
    as (_ & _ & _ & _ & _ & W & _).
  destruct (protection_snapshot (controllers cfg sa))
    as (_ & _ & _ & _ & _ & P & _).
  cbv zeta in W, P. rewrite W, P, controllers_mode.
  destruct (cv_pred cfg sa), (cc_pred cfg sa), (bp_pred cfg sa); cbn; tauto.
Qed.

(** X14. After a call of [mppt()], [led()] makes exactly one call of
    [LED.flash], the one of the mode in force: in MPPT mode 20/380/700 ms
    with the panel voltage as pulse count, else 30 ms on and 100, 50 or
    25 ms off for CV, CC or BP. *)
Theorem led_one_pattern_per_mode (cfg : Config) (s : Sample)
    (rs : list Resample) (st st' : State) :
  mppt cfg s rs st = Some st' ->
  exists f, led st' = [f] /\
    (controlMode st' = MPPT ->
     f = mkFlash 20 380 700 (inputVoltage st')) /\
    (controlMode st' = CV -> f = mkFlash 30 100 0 (of_Z 0)) /\
    (controlMode st' = CC -> f = mkFlash 30 50 0 (of_Z 0)) /\
    (controlMode st' = BP -> f = mkFlash 30 25 0 (of_Z 0)).
Proof.
  intros H. apply mppt_mode_code in H as Hin.
  unfold led. cbn [In] in Hin.
  destruct Hin as [E|[E|[E|[E|[]]]]]; rewrite <- E; cbn;
    eexists; (split; [reflexivity|]); unfold CV, CC, BP, MPPT;
    repeat split; intros; try reflexivity; discriminate.
Qed.

Lemma led_one_pattern_per_mode_witness :
  let cfg := default_config MHz16 in
  let st' := write_output (protection (controllers cfg
               (readSensors cfg (mkSample 372 504 276) (readPot 0 init)))) in
  exists f, led st' = [f].
Proof.
  intros cfg st'.
  destruct (led_one_pattern_per_mode cfg (mkSample 372 504 276) []
              (readPot 0 init) st') as (f & Hf & _).
  - vm_compute. reflexivity.
  - exists f. exact Hf.
Defined.

(** ** One pass of [loop()] *)

Lemma loop_inv_of (cfg : Config) (i : CycleIn) (st st' : State) :
  loop cfg i st = Some st' ->
  exists sa,
    arbitration_point cfg (first i) (resamples i)
      (readPot (aPot i) (delay (elapsed i) st)) = Some sa /\
    st' = checkVcc (vccmv i) (write_output (protection (controllers cfg sa))).
Proof.
  unfold loop. cbv zeta.
  destruct (mppt cfg (first i) (resamples i)
              (readPot (aPot i) (delay (elapsed i) st))) as [s1|] eqn:E;
    [|discriminate].
  intros H. inversion H; subst st'; clear H.
  apply mppt_inv in E as (sa & Ha & ->). exists sa. split; [exact Ha|reflexivity].
Qed.

Lemma loop_pwm (cfg : Config) (i : CycleIn) (sa : State) :
  let st' := checkVcc (vccmv i) (write_output (protection (controllers cfg sa))) in
  pwm st' = constrain (pwm (protection (controllers cfg sa))) (of_Z 0) (of_Z 150) /\
  pwmOut st' = pwm st' :: pwmOut (protection (controllers cfg sa)).
Proof.
  destruct (checkVcc_frame (vccmv i)
              (write_output (protection (controllers cfg sa))))
    as (K1 & _ & _ & _ & _ & _ & K7 & _).
  cbv zeta in *. rewrite K1, K7. split; reflexivity.
Qed.


(** X15. A pass of [loop()] that returns has made [n] passes of the
    undervoltage loop, none exactly when the first acquisition shows no
    undervoltage.  It takes its own time plus 2000 ms per pass of the wait,
    and the PWM output receives, oldest first, [n] times the duty 0, then
    the duty 0 once more exactly when the snapshot shows the overvoltage,
    and last the accumulator converted to [int], which is 0 in that case;
    what the output received before is kept. *)
Theorem loop_pass_effects (cfg : Config) (i : CycleIn) (st st' : State) :
  loop cfg i st = Some st' ->
  exists n,
    (n <= length (resamples i))%nat /\
    (n = 0%nat <->
     undervoltage (readSensors cfg (first i)
                     (readPot (aPot i) (delay (elapsed i) st))) = false) /\
    clock st' = clock st + elapsed i + 2000 * Z.of_nat n /\
    dutyOut st'
    = to_int (pwm st') :: (if overvoltage st' then [Some 0] else [])
                       ++ repeat (Some 0) n ++ dutyOut st /\
    (overvoltage st' = true -> pwm st' = zero /\ to_int (pwm st') = Some 0).
Proof.
  intros H. apply loop_inv_of in H as (sa & Ha & ->).
  unfold arbitration_point in Ha.
  set (sa0 := readSensors cfg (first i) (readPot (aPot i) (delay (elapsed i) st))) in *.
  apply undervoltage_wait_inv in Ha as (n & Hn & Hsa & Hk & Hc).
  exists n. split; [exact Hn|]. split.
  { split.
    - intros ->. change (sa = sa0) in Hsa. subst sa. exact Hc.
    - intros Hf. destruct n; [reflexivity|].
      specialize (Hk 0%nat ltac:(lia)). change (undervoltage sa0 = true) in Hk.
      congruence. }
  pose proof (wait_passes_effect cfg (firstn n (resamples i)) sa0)
    as (_ & E2 & E3 & _).
  cbv zeta in E2, E3. rewrite <- Hsa in E2, E3.
  rewrite length_firstn, Nat.min_l in E2, E3 by exact Hn.
  destruct (readSensors_frame cfg (first i) (readPot (aPot i) (delay (elapsed i) st)))
    as (_ & _ & _ & _ & _ & _ & F7 & F8 & _).
  cbv zeta in F7, F8. fold sa0 in F7, F8. rewrite F8 in E2. rewrite F7 in E3.
  change (pwmOut (readPot (aPot i) (delay (elapsed i) st))) with (pwmOut st) in E2.
  change (clock (readPot (aPot i) (delay (elapsed i) st)))
    with (clock st + elapsed i) in E3.
  destruct (loop_pwm cfg i sa) as (L1 & L2). cbv zeta in L1, L2.
  destruct (checkVcc_frame (vccmv i)
              (write_output (protection (controllers cfg sa))))
    as (_ & _ & _ & _ & K5 & K6 & _ & K8 & _).
  destruct (write_output_snapshot (protection (controllers cfg sa)))
    as (W1 & _ & _ & _ & W5 & _ & W7 & _).
  destruct (protection_snapshot (controllers cfg sa))
    as (P1 & _ & _ & _ & P5 & _ & P7).
  destruct (controllers_snapshot cfg sa) as (C1 & _ & _ & _ & C5 & C6 & C7).
  cbv zeta in *.
  split; [rewrite K6, W7, P7, C7, E3; reflexivity|].
  assert (Hov : overvoltage (checkVcc (vccmv i)
                   (write_output (protection (controllers cfg sa))))
                = overvoltage (controllers cfg sa)).
  { unfold overvoltage. rewrite K8, K5, W1, W5, P1, P5. reflexivity. }
  rewrite Hov. unfold dutyOut at 1. rewrite L2. cbn [map].
  split.
  - f_equal. unfold dutyOut. rewrite <- dutyOut_zeros, <- E2, <- C6.
    unfold protection, lockout. fold (overvoltage (controllers cfg sa)).
    destruct (overvoltage (controllers cfg sa));
      cbn [pwmOut analogWrite set_pwmOut set_pwm app map]; reflexivity.
  - intros Ho. rewrite L1. unfold protection. fold (overvoltage (controllers cfg sa)).
    rewrite Ho. split; reflexivity.
Qed.

(** ** What holds in every reachable state *)

Lemma first_pass_input_valid : valid_input first_pass_input.
Proof.
  unfold valid_input, valid_sample, valid_adc, valid_vccmv, first_pass_input.
  cbn. repeat split; try lia. apply Forall_nil.
Qed.

(** X1. With the sketch's configuration and readings the hardware can
    deliver, every value ever handed to [analogWrite(PWM, _)], by [setup()],
    by the undervoltage loop, by the lockout and by the output stage, lies
    within [0, 150] and converts to an integer duty within [0, 150]. *)
Theorem pwm_writes_within_duty_range (b : Board) (st : State) :
  reachable (default_config b) st ->
  forall v, In v (pwmOut st) ->
    (of_Z 0 <= v)%F = true /\ (v <= of_Z PWM_MAX)%F = true /\
    exists d, to_int v = Some d /\ 0 <= d <= PWM_MAX.
Proof.
  intros H v Hv. apply reachable_inv in H as (((_ & _ & _ & _ & _ & _ & _ & _ & _ & _ & L) & _) & _).
  pose proof (proj1 (Forall_forall _ _) L v Hv) as Hd.
  split; [apply Hd|]. split; [apply Hd|]. apply duty_range_to_int, Hd.
Qed.

(** X2. The output stage stores the constrained value back into [pwm]:
    when a pass of [loop()] starts the accumulator lies within [0, 150], and
    the duty the PWM output last received is the accumulator converted to
    [int], an integer within 0..150. *)
Theorem accumulator_within_duty_range (b : Board) (st : State) :
  reachable (default_config b) st ->
  (of_Z 0 <= pwm st)%F = true /\ (pwm st <= of_Z PWM_MAX)%F = true /\
  exists d, to_int (pwm st) = Some d /\ 0 <= d <= PWM_MAX /\
            hd_error (dutyOut st) = Some (Some d).
Proof.
  intros H. pose proof (reachable_last_write _ _ H) as Hl.
  apply reachable_inv in H as ((_ & Hd) & _).
  split; [apply Hd|]. split; [apply Hd|].
  destruct (duty_range_to_int _ Hd) as (d & E & R).
  exists d. split; [exact E|]. split; [exact R|].
  unfold dutyOut. destruct (pwmOut st) as [|v l]; [discriminate|].
  cbn in Hl. inversion Hl; subst v. cbn. rewrite E. reflexivity.
Qed.


(** X3. With readings the hardware can deliver, the supply voltage, the
    panel and output voltages, the filtered output current, the set point
    and the accumulator are never NaN and never infinite. *)
Theorem measurements_stay_finite (b : Board) (st : State) :
  reachable (default_config b) st ->
  is_finite (vcc st) = true /\ is_finite (inputVoltage st) = true /\
  is_finite (outputVoltage st) = true /\ is_finite (outputCurrent st) = true /\
  is_finite (targetOutputVoltage st) = true /\ is_finite (pwm st) = true.
Proof.
  intros H.
  apply reachable_inv in H
    as (((V & I & O & C & _ & _ & _ & _ & _ & U & _) & (P & _)) & _).
  repeat split; eapply finite_below_is_finite; eassumption.
Qed.

(** X4. With the sketch's configuration the tracker's target stays strictly
    between 12 V and 16 V in every state in which a pass of [loop()] starts. *)
Theorem target_between_limits (b : Board) (st : State) :
  reachable (default_config b) st ->
  (targetPanelVoltage st > of_Z 12)%F = true /\
  (targetPanelVoltage st < of_Z 16)%F = true.
Proof.
  intros H. apply reachable_inv in H as (_ & H). exact H.
Qed.


Lemma pwm_writes_within_duty_range_witness :
  match loop (default_config MHz16) first_pass_input init with
  | Some st' =>
      forall v, In v (pwmOut st') ->
        (of_Z 0 <= v)%F = true /\ (v <= of_Z PWM_MAX)%F = true /\
        exists d, to_int v = Some d /\ 0 <= d <= PWM_MAX
  | None => False
  end.
Proof.
  destruct (loop (default_config MHz16) first_pass_input init) as [st'|] eqn:E.
  - apply (pwm_writes_within_duty_range MHz16 st').
    exact (reach_loop _ init first_pass_input st' (reach_init _)
             first_pass_input_valid E).
  - vm_compute in E. discriminate.
Defined.

Lemma tracking_pass_valid : valid_input tracking_pass.
Proof.
  unfold valid_input, valid_sample, valid_adc, valid_vccmv, tracking_pass.
  cbn. repeat split; try lia. apply Forall_nil.
Qed.

(** After the tracking pass the accumulator is at 4.38 and the output has
    received the duty 4. *)
Lemma accumulator_within_duty_range_witness :
  match loop (default_config MHz16) tracking_pass init with
  | Some st' =>
      ((of_Z 0 <= pwm st')%F = true /\ (pwm st' <= of_Z PWM_MAX)%F = true /\
       exists d, to_int (pwm st') = Some d /\ 0 <= d <= PWM_MAX /\
                 hd_error (dutyOut st') = Some (Some d)) /\
      (of_Z 4 < pwm st')%F = true /\ dutyOut st' = [Some 4; Some 0]
  | None => False
  end.
Proof.
  destruct (loop (default_config MHz16) tracking_pass init) as [st'|] eqn:E.
  - split.
    + apply (accumulator_within_duty_range MHz16 st').
      exact (reach_loop _ init tracking_pass st' (reach_init _)
               tracking_pass_valid E).
    + vm_compute in E. inversion E as [E1]. vm_compute. split; reflexivity.
  - vm_compute in E. discriminate.
Defined.

Lemma measurements_stay_finite_witness :
  match loop (default_config MHz16) first_pass_input init with
  | Some st' =>
      is_finite (vcc st') = true /\ is_finite (inputVoltage st') = true /\
      is_finite (outputVoltage st') = true /\
      is_finite (outputCurrent st') = true /\
      is_finite (targetOutputVoltage st') = true /\ is_finite (pwm st') = true
  | None => False
  end.
Proof.
  destruct (loop (default_config MHz16) first_pass_input init) as [st'|] eqn:E.
  - apply (measurements_stay_finite MHz16 st').
    exact (reach_loop _ init first_pass_input st' (reach_init _)
             first_pass_input_valid E).
  - vm_compute in E. discriminate.
Defined.

Lemma target_between_limits_witness :
  match loop (default_config MHz16) first_pass_input init with
  | Some st' =>
      (targetPanelVoltage st' > of_Z 12)%F = true /\
      (targetPanelVoltage st' < of_Z 16)%F = true
  | None => False
  end.
Proof.
  destruct (loop (default_config MHz16) first_pass_input init) as [st'|] eqn:E.
  - apply (target_between_limits MHz16 st').
    exact (reach_loop _ init first_pass_input st' (reach_init _)
             first_pass_input_valid E).
  - vm_compute in E. discriminate.
Defined.

Lemma readPot_setpoint_range_witness :
  (lit 42 10 <= targetOutputVoltage (readPot 512 init))%F = true /\
  (targetOutputVoltage (readPot 512 init) <= lit 52 10)%F = true.
Proof.
  apply (readPot_setpoint_range 512 init). unfold valid_adc. lia.
Defined.

(** The tracking pass from a cold start writes the duty 4 after the 0 of
    [setup()]; the pass after it waits once, is locked out and writes three
    times 0. *)
Lemma loop_pass_effects_witness :
  let cfg := default_config MHz16 in
  match loop cfg tracking_pass init with
  | Some st1 =>
      match loop cfg lockout_pass st1 with
      | Some st2 =>
          (exists n,
              (n <= 1)%nat /\
              (n = 0%nat <->
               undervoltage (readSensors cfg (first lockout_pass)
                               (readPot (aPot lockout_pass)
                                  (delay (elapsed lockout_pass) st1))) = false) /\
              clock st2 = clock st1 + 5 + 2000 * Z.of_nat n /\
              dutyOut st2
              = to_int (pwm st2) :: (if overvoltage st2 then [Some 0] else [])
                                 ++ repeat (Some 0) n ++ dutyOut st1 /\
              (overvoltage st2 = true ->
               pwm st2 = zero /\ to_int (pwm st2) = Some 0)) /\
          dutyOut st1 = [Some 4; Some 0] /\
          dutyOut st2 = [Some 0; Some 0; Some 0; Some 4; Some 0]
      | None => False
      end
  | None => False
  end.
Proof.
  intros cfg.
  destruct (loop cfg tracking_pass init) as [st1|] eqn:E1;
    [|vm_compute in E1; discriminate].
  destruct (loop cfg lockout_pass st1) as [st2|] eqn:E2.
  - split; [exact (loop_pass_effects cfg lockout_pass st1 st2 E2)|].
    vm_compute in E1. inversion E1 as [H1]. subst st1.
    vm_compute in E2. inversion E2 as [H2].
    vm_compute. split; reflexivity.
  - vm_compute in E1. inversion E1 as [H1]. subst st1.
    vm_compute in E2. discriminate.
Defined.

(** ** The output stage and the accumulator *)

(** The undervoltage loop ends once an acquisition shows no undervoltage. *)
Lemma undervoltage_wait_returns (cfg : Config) (rs : list Resample) :
  forall st n,
    (n <= length rs)%nat ->
    undervoltage (wait_passes cfg (firstn n rs) st) = false ->
    exists sa, undervoltage_wait cfg rs st = Some sa.
Proof.
  induction rs as [|r rs IH]; intros st n Hn H.
  - destruct n; [|cbn in Hn; lia]. cbn in H. cbn. rewrite H. eexists. reflexivity.
  - cbn [undervoltage_wait]. destruct (undervoltage st) eqn:U.
    + destruct n as [|n]; [cbn in H; congruence|].
      cbn [length] in Hn. apply (IH (wait_body cfg r st) n); [lia|exact H].
    + eexists. reflexivity.
Qed.

(** The state a pass of [loop()] hands to the output stage is bounded. *)
Lemma loop_pre_ok (b : Board) (i : CycleIn) (st sa : State) :
  reachable (default_config b) st -> valid_input i ->
  arbitration_point (default_config b) (first i) (resamples i)
    (readPot (aPot i) (delay (elapsed i) st)) = Some sa ->
  pre_ok (protection (controllers (default_config b) sa)).
Proof.
  intros Hr (Hp & Hs & Hrs & _) Ha. apply reachable_inv in Hr as (Hst & Ht).
  unfold arbitration_point in Ha.
  assert (Hsa : state_ok sa).
  { eapply undervoltage_wait_ok; [exact Hrs| |exact Ha].
    apply readSensors_ok; [exact Hs|]. apply readPot_ok; [exact Hp|exact Hst]. }
  assert (Hta : target_in_range (default_config b) sa).
  { apply undervoltage_wait_effect in Ha as (n & _ & _ & _ & _ & _ & _ & E & _).
    destruct (readSensors_frame (default_config b) (first i)
                (readPot (aPot i) (delay (elapsed i) st))) as (_ & _ & F & _).
    cbv zeta in F. unfold target_in_range. rewrite E, F. exact Ht. }
  apply protection_ok. apply (controllers_ok b sa Hsa Hta).
Qed.


(** *** C3 *)

(** C3. With the sketch's configuration and readings the hardware can
    deliver, the value a pass of [loop()] hands to the PWM output at its end
    is [constrain(pwm, 0, 150)] of the accumulator as the controller chain
    and the protection left it, whatever that is; it lies within
    [0, PWM_MAX], and the output receives it as an integer duty within
    0..PWM_MAX.  A pass returns as soon as one acquisition, the first or one
    of the undervoltage loop, shows no undervoltage. *)
Theorem C3_duty_cycle_within_limits (b : Board) :
  (forall st i st',
      reachable (default_config b) st -> valid_input i ->
      loop (default_config b) i st = Some st' ->
      exists sa v d,
        arbitration_point (default_config b) (first i) (resamples i)
          (readPot (aPot i) (delay (elapsed i) st)) = Some sa /\
        hd_error (pwmOut st') = Some v /\
        v = constrain (pwm (protection (controllers (default_config b) sa)))
              (of_Z 0) (of_Z PWM_MAX) /\
        (of_Z 0 <= v)%F = true /\ (v <= of_Z PWM_MAX)%F = true /\
        to_int v = Some d /\ 0 <= d <= PWM_MAX /\
        hd_error (dutyOut st') = Some (Some d)) /\
  (forall st i n,
      (n <= length (resamples i))%nat ->
      undervoltage
        (wait_passes (default_config b) (firstn n (resamples i))
           (readSensors (default_config b) (first i)
              (readPot (aPot i) (delay (elapsed i) st)))) = false ->
      exists st', loop (default_config b) i st = Some st').
Proof.
  split.
  - intros st i st' Hr Hi Hl.
    destruct (loop_inv_of _ _ _ _ Hl) as (sa & Ha & ->).
    pose proof (loop_pre_ok b i st sa Hr Hi Ha) as (_ & Hp).
    pose proof (constrain_duty_range 60 _ Hp) as Hd.
    destruct (duty_range_to_int _ Hd) as (d & E & R).
    destruct (loop_pwm (default_config b) i sa) as (L1 & L2). cbv zeta in L1, L2.
    exists sa, (constrain (pwm (protection (controllers (default_config b) sa)))
                  (of_Z 0) (of_Z PWM_MAX)), d.
    split; [exact Ha|]. split; [rewrite L2, L1; reflexivity|].
    split; [reflexivity|]. split; [apply Hd|]. split; [apply Hd|].
    split; [exact E|]. split; [exact R|].
    unfold dutyOut. rewrite L2, L1. cbn [map hd_error]. rewrite E. reflexivity.
  - intros st i n Hn H.
    destruct (undervoltage_wait_returns (default_config b) (resamples i) _ n Hn H)
      as (sa & Hsa).
    unfold loop, mppt, arbitration_point. cbv zeta. rewrite Hsa.
    eexists. reflexivity.
Qed.

(** A cold start at 18 V and 4.5 V: the CV arithmetic takes the accumulator
    from 0 to -0.3; 0 is written. *)
Lemma C3_witness :
  let cfg := default_config MHz16 in
  let sa := readSensors cfg (first first_pass_input)
              (readPot (aPot first_pass_input)
                 (delay (elapsed first_pass_input) init)) in
  (pwm (protection (controllers cfg sa)) < of_Z 0)%F = true /\
  match loop cfg first_pass_input init with
  | Some st' =>
      exists v d, hd_error (pwmOut st') = Some v /\
                  to_int v = Some d /\ 0 <= d <= PWM_MAX /\
                  hd_error (dutyOut st') = Some (Some d)
  | None => False
  end /\
  exists st', loop cfg waiting_pass init = Some st'.
Proof.
  intros cfg sa. split; [vm_compute; reflexivity|]. split.
  - destruct (loop cfg first_pass_input init) as [st'|] eqn:E;
      [|vm_compute in E; discriminate].
    destruct (proj1 (C3_duty_cycle_within_limits MHz16) init first_pass_input
                st' (reach_init _) first_pass_input_valid E)
      as (sa' & v & d & _ & Hv & _ & _ & _ & Hd & Hr & Ho).
    exists v, d. split; [exact Hv|]. split; [exact Hd|]. split; [exact Hr|exact Ho].
  - apply (proj2 (C3_duty_cycle_within_limits MHz16) init waiting_pass 1%nat).
    + cbn. lia.
    + vm_compute. reflexivity.
Defined.


(** *** C4 *)

(** C4, as written, fails: the accumulator is clamped.  In the pass below
    the CV arithmetic takes it from 0 to -0.3, and the pass returns with
    [pwm] at 0; and no state in which a pass starts has [pwm] outside
    [0, PWM_MAX]. *)
Lemma C4_counterexample :
  (let cfg := default_config MHz16 in
   let sa := readSensors cfg (first first_pass_input)
               (readPot (aPot first_pass_input)
                  (delay (elapsed first_pass_input) init)) in
   (pwm (protection (controllers cfg sa)) < of_Z 0)%F = true /\
   match loop cfg first_pass_input init with
   | Some st' => pwm st' = zero
   | None => False
   end) /\
  ~ (exists b st, reachable (default_config b) st /\
                  ((of_Z 0 <= pwm st)%F = false \/
                   (pwm st <= of_Z PWM_MAX)%F = false)).
Proof.
  split; [vm_compute; split; reflexivity|].
  intros (b & st & Hr & Ho).
  apply reachable_inv in Hr as ((_ & (_ & H0 & H1)) & _).
  destruct Ho as [Ho|Ho]; congruence.
Qed.


(** C4 (amended). The output stage clamps the accumulator itself,
    [pwm = constrain(pwm, 0, 150)], and hands the stored value, converted to
    [int], to the PWM output: a pass of [loop()] returns with [pwm] equal to the constrained
    value of what the controller chain and the protection left.  So the
    accumulator is outside [0, PWM_MAX] only inside a pass, between the
    arithmetic of a mode and the output stage; in every state in which a
    pass starts it lies within [0, PWM_MAX]. *)
Theorem C4_accumulator_is_clamped (b : Board) :
  (forall x : State,
      pwm (write_output x) = constrain (pwm x) (of_Z 0) (of_Z PWM_MAX) /\
      hd_error (dutyOut (write_output x))
      = Some (to_int (pwm (write_output x)))) /\
  (forall cfg i st st',
      loop cfg i st = Some st' ->
      exists sa,
        arbitration_point cfg (first i) (resamples i)
          (readPot (aPot i) (delay (elapsed i) st)) = Some sa /\
        pwm st' = constrain (pwm (protection (controllers cfg sa)))
                    (of_Z 0) (of_Z PWM_MAX)) /\
  (forall st,
      reachable (default_config b) st ->
      (of_Z 0 <= pwm st)%F = true /\ (pwm st <= of_Z PWM_MAX)%F = true).
Proof.
  split; [|split].
  - intros x. split; reflexivity.
  - intros cfg i st st' Hl.
    destruct (loop_inv_of _ _ _ _ Hl) as (sa & Ha & ->).
    exists sa. split; [exact Ha|]. apply loop_pwm.
  - intros st Hr. apply reachable_inv in Hr as ((_ & (_ & H0 & H1)) & _).
    split; assumption.
Qed.

Lemma C4_witness :
  match loop (default_config MHz16) first_pass_input init with
  | Some st' => (of_Z 0 <= pwm st')%F = true /\ (pwm st' <= of_Z PWM_MAX)%F = true
  | None => False
  end.
Proof.
  destruct (loop (default_config MHz16) first_pass_input init) as [st'|] eqn:E;
    [|vm_compute in E; discriminate].
  apply (proj2 (proj2 (C4_accumulator_is_clamped MHz16)) st').
  exact (reach_loop _ init first_pass_input st' (reach_init _)
           first_pass_input_valid E).
Defined.
